(** * Verification model of the VM provisioning service

    A shallow embedding of [src/sdk/exceptions.py], [src/sdk/models.py],
    [src/sdk/client.py] and the HTTP handlers of [src/main.py].

    - Python exceptions are an inductive type [exn]; whether an exception
      is an instance of [Exception] (and so caught by [except Exception])
      is the boolean [is_Exception].
    - A method that mutates [self] and may raise is a function
      [Client -> Client * (exn + A)]: the new object state and either the
      raised exception or the returned value.
    - Sources of nondeterminism ([random.randint], [uuid4], [utcnow],
      database faults) are explicit inputs. *)

From Stdlib Require Import ZArith String List Ascii Bool.
From stdpp Require Import base gmap strings list pretty.
Import ListNotations.
Open Scope string_scope.

(* ================================================================== *)
(** ** Exceptions ([sdk/exceptions.py] and the libraries used) *)

(** [ClientException(BaseException)] with its two subclasses, pydantic's
    [ValidationError] (a [ValueError]), FastAPI/Starlette's
    [HTTPException] and SQLAlchemy's [SQLAlchemyError]. *)
Inductive exn :=
| AuthenticationError (msg : string)
| NoResourcesAvailableError (msg : string)
| ValidationError (msg : string)
| HTTPException (status_code : Z) (detail : string)
| SQLAlchemyError (msg : string).

(** [isinstance(e, Exception)]: [ClientException] derives from
    [BaseException] directly, so the two SDK errors are not [Exception]s. *)
Definition is_Exception (e : exn) : bool :=
  match e with
  | AuthenticationError _ | NoResourcesAvailableError _ => false
  | ValidationError _ | HTTPException _ _ | SQLAlchemyError _ => true
  end.

(** [str(e)]; Starlette's [HTTPException.__str__] is
    [f"{self.status_code}: {self.detail}"]. A pydantic [ValidationError]
    is kept as its error message, not its full multi-line report. *)
Definition exn_str (e : exn) : string :=
  match e with
  | AuthenticationError m | NoResourcesAvailableError m
  | ValidationError m | SQLAlchemyError m => m
  | HTTPException c d => pretty c +:+ ": " +:+ d
  end.

(* ================================================================== *)
(** ** The mock SDK client ([sdk/client.py]) *)

(** [api_key: str | None] and the flag [authenticated], whose class-level
    default is [False]. *)
Record Client := mkClient { api_key : option string; authenticated : bool }.

(** [Client(api_key)]: [__init__] only stores the key. *)
Definition new_Client (k : option string) : Client :=
  {| api_key := k; authenticated := false |}.

(** Python truthiness of an [str | None]. *)
Definition truthy_str (s : option string) : bool :=
  match s with
  | None => false
  | Some v => negb (String.eqb v "")
  end.

(** [Client.authenticate]. *)
Definition authenticate (self : Client) : Client * (exn + bool) :=
  if negb (truthy_str (api_key self)) then
    (self, inl (AuthenticationError "Invalid API key"))
  else
    let self' := {| api_key := api_key self; authenticated := true |} in
    (self', inr (authenticated self')).

(** [Client.delete_vm]. *)
Definition delete_vm (self : Client) (vm_id : string) : Client * (exn + bool) :=
  if negb (authenticated self) then
    (self, inl (AuthenticationError "Not authenticated"))
  else (self, inr true).

(* ================================================================== *)
(** ** IP addresses (Python's [ipaddress], used by pydantic's
    [IPvAnyAddress] field of [VirtualMachine] and [VMCreateRequest])

    Translated from CPython 3.12 [ipaddress]: [IPv4Address] and
    [IPv6Address] construction from a [str], and their [__str__]. *)

(** [s.split(sep)] for a one-character separator. *)
Fixpoint split_on (sep : ascii) (s : string) : list string :=
  match s with
  | EmptyString => [""]
  | String a r =>
      let parts := split_on sep r in
      if Ascii.eqb a sep then "" :: parts
      else match parts with
           | p :: ps => String a p :: ps
           | [] => [String a ""]
           end
  end.

(** [sep.join(parts)]. *)
Fixpoint join (sep : string) (parts : list string) : string :=
  match parts with
  | [] => ""
  | [p] => p
  | p :: ps => p +:+ sep +:+ join sep ps
  end.

(** [c in s] for a character. *)
Fixpoint str_contains (c : ascii) (s : string) : bool :=
  match s with
  | EmptyString => false
  | String a r => Ascii.eqb a c || str_contains c r
  end.

(** [s.partition(sep)] for a one-character separator. *)
Fixpoint partition (sep : ascii) (s : string) : string * bool * string :=
  match s with
  | EmptyString => ("", false, "")
  | String a r =>
      if Ascii.eqb a sep then ("", true, r)
      else let '(h, found, t) := partition sep r in (String a h, found, t)
  end.

Definition dec_digit_value (a : ascii) : option Z :=
  let n := Z.of_nat (nat_of_ascii a) in
  if (48 <=? n)%Z && (n <=? 57)%Z then Some (n - 48)%Z else None.

Definition hex_digit_value (a : ascii) : option Z :=
  let n := Z.of_nat (nat_of_ascii a) in
  if (48 <=? n)%Z && (n <=? 57)%Z then Some (n - 48)%Z
  else if (97 <=? n)%Z && (n <=? 102)%Z then Some (n - 87)%Z
  else if (65 <=? n)%Z && (n <=? 70)%Z then Some (n - 55)%Z
  else None.

(** [int(s, base)] over digits already checked by [digit]; [None] when a
    character is not a digit. The empty string gives [None]. *)
Definition parse_int (digit : ascii -> option Z) (base : Z) (s : string)
  : option Z :=
  match s with
  | EmptyString => None
  | _ =>
    (fix go (s : string) (acc : Z) : option Z :=
       match s with
       | EmptyString => Some acc
       | String a r =>
           match digit a with
           | Some d => go r (acc * base + d)%Z
           | None => None
           end
       end) s 0%Z
  end.

(** The digits of [n] in [base], most significant first, no leading
    zeros ("0" for 0): [str(n)] for base 10, ['%x' % n] for base 16. *)
Fixpoint digits_go (fuel : nat) (base n : Z) (acc : string) : string :=
  match fuel with
  | O => acc
  | S f =>
      let d := Z.modulo n base in
      let c := ascii_of_nat (Z.to_nat (if (d <? 10)%Z then 48 + d else 87 + d)) in
      let q := Z.div n base in
      if (q =? 0)%Z then String c acc else digits_go f base q (String c acc)
  end.

Definition format_int (base n : Z) : string := digits_go 64 base n "".

(** [IPv4Address._parse_octet]. *)
Definition parse_octet (octet_str : string) : option Z :=
  if String.eqb octet_str "" then None
  else match parse_int dec_digit_value 10 octet_str with
       | None => None
       | Some octet_int =>
           if (3 <? String.length octet_str)%nat then None
           else if negb (String.eqb octet_str "0") &&
                   (match octet_str with String "0" _ => true | _ => false end)
           then None
           else if (255 <? octet_int)%Z then None
           else Some octet_int
       end.

(** [IPv4Address._ip_int_from_string]: the four octets, big endian. *)
Definition ipv4_int_from_string (ip_str : string) : option Z :=
  if String.eqb ip_str "" then None
  else
    let octets := split_on "." ip_str in
    if negb (length octets =? 4)%nat then None
    else fold_left
           (fun acc o => match acc, parse_octet o with
                         | Some a, Some v => Some (a * 256 + v)%Z
                         | _, _ => None
                         end) octets (Some 0%Z).

(** [IPv6Address._parse_hextet]. *)
Definition parse_hextet (hextet_str : string) : option Z :=
  match parse_int hex_digit_value 16 hextet_str with
  | None => None
  | Some v => if (4 <? String.length hextet_str)%nat then None else Some v
  end.

(** [IPv4Address(address)] for a [str] argument. *)
Definition IPv4Address_new (address : string) : option Z :=
  if str_contains "/" address then None else ipv4_int_from_string address.

(** Hextets [ps] appended to [acc], 16 bits each. *)
Definition push_hextets (acc : option Z) (ps : list string) : option Z :=
  fold_left (fun acc p => match acc, parse_hextet p with
                          | Some a, Some v => Some (Z.lor (Z.shiftl a 16) v)
                          | _, _ => None
                          end) ps acc.

(** [IPv6Address._ip_int_from_string]. *)
Definition ipv6_int_from_string (ip_str : string) : option Z :=
  if String.eqb ip_str "" then None else
  let parts0 := split_on ":" ip_str in
  if (length parts0 <? 3)%nat then None else
  let parts1 :=
    match last parts0 with
    | Some p =>
        if str_contains "." p then
          match IPv4Address_new p with
          | Some ipv4_int =>
              Some (removelast parts0 ++
                    [format_int 16 (Z.land (Z.shiftr ipv4_int 16) 65535);
                     format_int 16 (Z.land ipv4_int 65535)])%list
          | None => None
          end
        else Some parts0
    | None => Some parts0
    end in
  match parts1 with
  | None => None
  | Some parts =>
    let n := length parts in
    if (9 <? n)%nat then None else
    let is_empty i := String.eqb (nth i parts "") "" in
    let first_empty := is_empty 0%nat in
    let last_empty := is_empty (n - 1)%nat in
    let layout : option (nat * nat * nat) :=
      match List.filter is_empty (seq 1 (n - 2)) with
      | [] =>
          if negb (n =? 8)%nat then None
          else if first_empty then None
          else if last_empty then None
          else Some (n, 0%nat, 0%nat)
      | [skip_index] =>
          let parts_hi := skip_index in
          let parts_lo := (n - skip_index - 1)%nat in
          let hi := if first_empty then
                      (if (parts_hi - 1 =? 0)%nat then Some 0%nat else None)
                    else Some parts_hi in
          let lo := if last_empty then
                      (if (parts_lo - 1 =? 0)%nat then Some 0%nat else None)
                    else Some parts_lo in
          match hi, lo with
          | Some h, Some l =>
              let parts_skipped := (8 - (Z.of_nat h + Z.of_nat l))%Z in
              if (parts_skipped <? 1)%Z then None
              else Some (h, l, Z.to_nat parts_skipped)
          | _, _ => None
          end
      | _ => None
      end in
    match layout with
    | None => None
    | Some (parts_hi, parts_lo, parts_skipped) =>
        let ip_int := push_hextets (Some 0%Z) (firstn parts_hi parts) in
        let ip_int := option_map
          (fun v => Z.shiftl v (16 * Z.of_nat parts_skipped)) ip_int in
        push_hextets ip_int (skipn (n - parts_lo) parts)
    end
  end.

(** [IPv6Address(address)] for a [str] argument: the address and its
    scope id ([_split_scope_id]). *)
Definition IPv6Address_new (address : string) : option (Z * option string) :=
  if str_contains "/" address then None else
  let '(addr, sep, scope_id) := partition "%" address in
  let scope :=
    if negb sep then Some None
    else if String.eqb scope_id "" || str_contains "%" scope_id then None
    else Some (Some scope_id) in
  match scope, ipv6_int_from_string addr with
  | Some sc, Some ip => Some (ip, sc)
  | _, _ => None
  end.

(** A value of pydantic's [IPvAnyAddress] type. *)
Inductive IPvAnyAddress :=
| IPv4Address (ip : Z)
| IPv6Address (ip : Z) (scope_id : option string).

(** pydantic's [IPvAnyAddress] validation of a [str]: [IPv4Address], then
    [IPv6Address], else a validation error. *)
Definition validate_IPvAnyAddress (value : string) : exn + IPvAnyAddress :=
  match IPv4Address_new value with
  | Some ip => inr (IPv4Address ip)
  | None =>
      match IPv6Address_new value with
      | Some (ip, sc) => inr (IPv6Address ip sc)
      | None => inl (ValidationError "value is not a valid IPv4 or IPv6 address")
      end
  end.

(** [IPv6Address._compress_hextets]: the first longest run of at least two
    zero hextets becomes [""]. *)
Definition compress_hextets (hextets : list string) : list string :=
  let step (st : Z * Z * Z * Z) (ih : Z * string) :=
    let '(best_start, best_len, dc_start, dc_len) := st in
    let '(index, hextet) := ih in
    if String.eqb hextet "0" then
      let dc_len := (dc_len + 1)%Z in
      let dc_start := if (dc_start =? -1)%Z then index else dc_start in
      if (best_len <? dc_len)%Z then (dc_start, dc_len, dc_start, dc_len)
      else (best_start, best_len, dc_start, dc_len)
    else (best_start, best_len, (-1)%Z, 0%Z) in
  let idx := map Z.of_nat (seq 0 (length hextets)) in
  let '(best_start, best_len, _, _) :=
    fold_left step (combine idx hextets) ((-1)%Z, 0%Z, (-1)%Z, 0%Z) in
  if (1 <? best_len)%Z then
    let best_end := (best_start + best_len)%Z in
    let h1 := if (best_end =? Z.of_nat (length hextets))%Z
              then (hextets ++ [""])%list else hextets in
    let h2 := (firstn (Z.to_nat best_start) h1 ++ [""] ++
               skipn (Z.to_nat best_end) h1)%list in
    if (best_start =? 0)%Z then "" :: h2 else h2
  else hextets.

(** [str(address)]. *)
Definition ip_str (a : IPvAnyAddress) : string :=
  match a with
  | IPv4Address ip =>
      join "." (map (fun k => format_int 10 (Z.land (Z.shiftr ip (8 * k)) 255))
                    [3; 2; 1; 0]%Z)
  | IPv6Address ip sc =>
      let hextets := map (fun k => format_int 16
                            (Z.land (Z.shiftr ip (16 * (7 - Z.of_nat k))) 65535))
                         (seq 0 8) in
      let s := join ":" (compress_hextets hextets) in
      match sc with
      | Some scope => s +:+ "%" +:+ scope
      | None => s
      end
  end.

(** [str(IPvAnyAddress(value))], or [None] when validation fails. *)
Definition ip_normalise (value : string) : option string :=
  match validate_IPvAnyAddress value with
  | inr a => Some (ip_str a)
  | inl _ => None
  end.


(* ================================================================== *)
(** ** [VirtualMachine] ([sdk/models.py]) and [Client.create_vm] *)

Record VirtualMachine := mkVirtualMachine {
  vm_id : string;
  vm_name : string;
  vm_cpu_cores : Z;
  vm_memory : Z;
  vm_disk_size : Z;
  vm_public_ip : option IPvAnyAddress;
  vm_labels : list string
}.

(** [labels or []] for [labels: list[str] = None]. *)
Definition labels_or_empty (labels : option (list string)) : list string :=
  match labels with
  | Some ((_ :: _) as l) => l
  | _ => []
  end.

(** [Client.create_vm]. [randint] is the value of [random.randint(1, 100)]
    and [uuid] the text of [uuid4()] at this call; building the pydantic
    [VirtualMachine] validates [public_ip] as an [IPvAnyAddress]. *)
Definition create_vm (self : Client) (name : string) (cpu_cores memory disk_size : Z)
    (public_ip : option string) (labels : option (list string))
    (randint : Z) (uuid : string) : Client * (exn + VirtualMachine) :=
  if negb (authenticated self) then
    (self, inl (AuthenticationError "Not authenticated"))
  else if (randint =? 1)%Z then
    (self, inl (NoResourcesAvailableError
                  "No resources available to create a new virtual machine"))
  else
    let vm_id := uuid in
    let build ip := {| vm_id := vm_id; vm_name := name; vm_cpu_cores := cpu_cores;
                       vm_memory := memory; vm_disk_size := disk_size;
                       vm_public_ip := ip; vm_labels := labels_or_empty labels |} in
    match public_ip with
    | None => (self, inr (build None))
    | Some s =>
        match validate_IPvAnyAddress s with
        | inl e => (self, inl e)
        | inr a => (self, inr (build (Some a)))
        end
    end.

(* ================================================================== *)
(** ** Persistence ([VM] table of [main.py]) *)

(** A row of table [vms]. The timestamps are [None] on a fresh ORM object
    until the column defaults ([datetime.utcnow]) fill them at insert. *)
Record VM := mkVM {
  id : string;
  name : string;
  cpu_cores : Z;
  memory : Z;
  disk_size : Z;
  public_ip : option string;
  status : string;
  created_at : option Z;
  updated_at : option Z
}.

(** The process state shared by all requests: the module-level
    [sdk_client] and the table [vms] keyed by its primary key [id]. *)
Record World := mkWorld {
  sdk_client : Client;
  vms : gmap string VM
}.

(** What the environment decides during one request: the two [utcnow]
    defaults and, for each database call, whether it raises. *)
Record DbEnv := mkDbEnv {
  now_created : Z;
  now_updated : Z;
  fail_query : option string;
  fail_commit : option string;
  fail_refresh : option string
}.

(** Python statements over the process state: the state after the
    statements and the raised exception or the value. *)
Definition Py (A : Type) : Type := World -> World * (exn + A).

Global Instance Py_ret : MRet Py := fun A x w => (w, inr x).
Global Instance Py_bind : MBind Py := fun A B f m w =>
  let '(w', r) := m w in
  match r with
  | inl e => (w', inl e)
  | inr a => f a w'
  end.

Definition raise {A} (e : exn) : Py A := fun w => (w, inl e).

Definition lift {A} (r : exn + A) : Py A := fun w => (w, r).

(** [try: m except Exception as e: h(e)]. *)
Definition try_except_Exception {A} (m : Py A) (h : exn -> Py A) : Py A :=
  fun w =>
    let '(w', r) := m w in
    match r with
    | inl e => if is_Exception e then h e w' else (w', inl e)
    | inr a => (w', inr a)
    end.

(** A method call on the shared [sdk_client]. *)
Definition sdk {A} (f : Client -> Client * (exn + A)) : Py A := fun w =>
  let '(c', r) := f (sdk_client w) in
  ({| sdk_client := c'; vms := vms w |}, r).

Definition with_vms (w : World) (t : gmap string VM) : World :=
  {| sdk_client := sdk_client w; vms := t |}.

(** [db.add(new_vm); db.commit()]: the column defaults are applied; a
    duplicate primary key makes the commit raise [IntegrityError], whose
    text is kept only up to its first line (the [SQL], [parameters] and
    background lines that follow are not modelled). *)
Definition db_add_commit (new_vm : VM) (env : DbEnv) : Py unit := fun w =>
  match fail_commit env with
  | Some m => (w, inl (SQLAlchemyError m))
  | None =>
      match vms w !! id new_vm with
      | Some _ =>
          (w, inl (SQLAlchemyError
                     "(sqlite3.IntegrityError) UNIQUE constraint failed: vms.id"))
      | None =>
          let row := {| id := id new_vm; name := name new_vm;
                        cpu_cores := cpu_cores new_vm; memory := memory new_vm;
                        disk_size := disk_size new_vm; public_ip := public_ip new_vm;
                        status := status new_vm;
                        created_at := Some (default (now_created env) (created_at new_vm));
                        updated_at := Some (default (now_updated env) (updated_at new_vm)) |} in
          (with_vms w (<[id new_vm := row]> (vms w)), inr tt)
      end
  end.

(** [db.refresh(obj)]: reload the row. *)
Definition db_refresh (obj : VM) (env : DbEnv) : Py VM := fun w =>
  match fail_refresh env with
  | Some m => (w, inl (SQLAlchemyError m))
  | None =>
      match vms w !! id obj with
      | Some row => (w, inr row)
      | None => (w, inl (SQLAlchemyError "Could not refresh instance"))
      end
  end.

(** [db.query(VM).filter(VM.id == vm_id).first()]. *)
Definition db_query_first (vm_id : string) (env : DbEnv) : Py (option VM) := fun w =>
  match fail_query env with
  | Some m => (w, inl (SQLAlchemyError m))
  | None => (w, inr (vms w !! vm_id))
  end.

(** [db.delete(vm); db.commit()]. *)
Definition db_delete_commit (vm : VM) (env : DbEnv) : Py unit := fun w =>
  match fail_commit env with
  | Some m => (w, inl (SQLAlchemyError m))
  | None => (with_vms w (delete (id vm) (vms w)), inr tt)
  end.

(* ================================================================== *)
(** ** Request and response models of [main.py] *)

(** [VMCreateRequest]; FastAPI has already validated [public_ip]. *)
Record VMCreateRequest := mkVMCreateRequest {
  req_name : string;
  req_cpu_cores : Z;
  req_memory : Z;
  req_disk_size : Z;
  req_public_ip : option IPvAnyAddress;
  req_labels : option (list string)
}.

Record VMResponse := mkVMResponse {
  resp_id : string;
  resp_name : string;
  resp_cpu_cores : Z;
  resp_memory : Z;
  resp_disk_size : Z;
  resp_public_ip : option string;
  resp_labels : list string;
  resp_status : string;
  resp_created_at : Z;
  resp_updated_at : Z
}.

(** [VMResponse(...)] from a row: pydantic refuses a [None] timestamp. *)
Definition VMResponse_new (vm : VM) (labels : list string) (st : string)
  : exn + VMResponse :=
  match created_at vm, updated_at vm with
  | Some c, Some u =>
      inr {| resp_id := id vm; resp_name := name vm; resp_cpu_cores := cpu_cores vm;
             resp_memory := memory vm; resp_disk_size := disk_size vm;
             resp_public_ip := public_ip vm; resp_labels := labels;
             resp_status := st; resp_created_at := c; resp_updated_at := u |}
  | _, _ => inl (ValidationError "Input should be a valid datetime")
  end.

(* ================================================================== *)
(** ** Tokens ([jose.jwt] as used by [main.py])

    A signed token is kept as its parts; the signature is the symbolic
    [HMAC key alg payload], so verification with a key recomputes it. *)

Inductive Signature := HMAC (key : string) (alg : string) (payload : list (string * string)).

Record JWT := mkJWT {
  jwt_alg : string;
  jwt_payload : list (string * string);
  jwt_signature : Signature
}.

Definition ALGORITHM : string := "HS256".

(** [jwt.encode(claims, key, algorithm=alg)]. *)
Definition jwt_encode (claims : list (string * string)) (key alg : string) : JWT :=
  {| jwt_alg := alg; jwt_payload := claims; jwt_signature := HMAC key alg claims |}.

Definition Signature_eqb (s1 s2 : Signature) : bool :=
  match s1, s2 with
  | HMAC k1 a1 p1, HMAC k2 a2 p2 =>
      String.eqb k1 k2 && String.eqb a1 a2 &&
      bool_decide (p1 = p2)
  end.

(** [jwt.decode(token, key, algorithms=algs)]: [None] is a [JWTError]. *)
Definition jwt_decode (token : JWT) (key : string) (algorithms : list string)
  : option (list (string * string)) :=
  if existsb (String.eqb (jwt_alg token)) algorithms &&
     Signature_eqb (jwt_signature token) (HMAC key (jwt_alg token) (jwt_payload token))
  then Some (jwt_payload token) else None.

(** [payload.get(k)]. *)
Fixpoint dict_get (d : list (string * string)) (k : string) : option string :=
  match d with
  | [] => None
  | (k', v) :: r => if String.eqb k k' then Some v else dict_get r k
  end.

(** [login]: the body [{"access_token": ..., "token_type": "bearer"}]. *)
Record TokenBody := mkTokenBody { access_token : JWT; token_type : string }.

Record OAuth2PasswordRequestForm := mkForm { username : string; password : string }.

Definition login (SECRET_KEY : string) (form_data : OAuth2PasswordRequestForm) : TokenBody :=
  let user_id := username form_data in
  let access_token := jwt_encode [("sub", user_id)] SECRET_KEY ALGORITHM in
  {| access_token := access_token; token_type := "bearer" |}.

(** The fields of a form-encoded body, in order. [form.get(k)] on
    Starlette's [FormData] gives the last value sent under [k]. *)
Fixpoint form_get (form : list (string * string)) (k : string) : option string :=
  match form with
  | [] => None
  | (k', v) :: r =>
      match form_get r k with
      | Some v' => Some v'
      | None => if String.eqb k k' then Some v else None
      end
  end.

(** FastAPI's [_get_multidict_value] for a [Form] field: a field that is
    absent or sent as the empty string counts as missing. *)
Definition form_field (form : list (string * string)) (k : string) : option string :=
  match form_get form k with
  | Some EmptyString => None
  | v => v
  end.

(** The answer of [POST /token]: the handler's body, or FastAPI's 422
    with the names of the fields that failed validation. *)
Inductive TokenResponse :=
| TokenOK (body : TokenBody)
| TokenUnprocessable (fields : list string).

Definition token_status (r : TokenResponse) : Z :=
  match r with
  | TokenOK _ => 200
  | TokenUnprocessable _ => 422
  end.

(** [POST /token]: FastAPI builds [OAuth2PasswordRequestForm] from the
    form ([grant_type] optional with pattern ["^password$"]; [username]
    and [password] required; [scope], [client_id] and [client_secret]
    optional strings), answering 422 when a field fails, then runs
    [login]. *)
Definition post_token (SECRET_KEY : string) (form : list (string * string))
  : TokenResponse :=
  let grant_type_bad :=
    match form_field form "grant_type" with
    | Some g => negb (String.eqb g "password")
    | None => false
    end in
  let errors :=
    ((if grant_type_bad then ["grant_type"] else []) ++
     (match form_field form "username" with None => ["username"] | Some _ => [] end) ++
     (match form_field form "password" with None => ["password"] | Some _ => [] end))%list in
  match form_field form "username", form_field form "password" with
  | Some u, Some p =>
      if grant_type_bad then TokenUnprocessable errors
      else TokenOK (login SECRET_KEY {| username := u; password := p |})
  | _, _ => TokenUnprocessable errors
  end.

(** [OAuth2PasswordBearer] then [get_current_user]. *)
Definition get_current_user (SECRET_KEY : string) (authorization : option JWT)
  : exn + string :=
  match authorization with
  | None => inl (HTTPException 401 "Not authenticated")
  | Some token =>
      match jwt_decode token SECRET_KEY [ALGORITHM] with
      | None => inl (HTTPException 401 "Invalid credentials")
      | Some payload =>
          match dict_get payload "sub" with
          | None => inl (HTTPException 401 "Invalid credentials")
          | Some user_id => inr user_id
          end
      end
  end.

(* ================================================================== *)
(** ** Handlers of [main.py] *)

(** Handler of [POST /vms]. *)
Definition create_vm_handler (request : VMCreateRequest) (randint : Z) (uuid : string)
    (env : DbEnv) : Py VMResponse :=
  try_except_Exception
    (_ ← sdk authenticate;
     vm ← sdk (fun c => create_vm c (req_name request) (req_cpu_cores request)
                          (req_memory request) (req_disk_size request)
                          (ip_str <$> req_public_ip request) (req_labels request)
                          randint uuid);
     let new_vm := {| id := vm_id vm; name := vm_name vm; cpu_cores := vm_cpu_cores vm;
                      memory := vm_memory vm; disk_size := vm_disk_size vm;
                      public_ip := ip_str <$> vm_public_ip vm;
                      status := "created"; created_at := None; updated_at := None |} in
     db_add_commit new_vm env;;
     new_vm ← db_refresh new_vm env;
     lift (VMResponse_new new_vm (labels_or_empty (req_labels request)) (status new_vm)))
    (fun e => raise (HTTPException 500 (exn_str e))).

(** Handler of [DELETE /vms/{vm_id}]. *)
Definition delete_vm_handler (vm_id : string) (env : DbEnv) : Py VMResponse :=
  try_except_Exception
    (_ ← sdk authenticate;
     _ ← sdk (fun c => delete_vm c vm_id);
     vm ← db_query_first vm_id env;
     match vm with
     | None => raise (HTTPException 404 "VM not found")
     | Some vm =>
         db_delete_commit vm env;;
         lift (VMResponse_new vm [] "deleted")
     end)
    (fun e => raise (HTTPException 500 (exn_str e))).

(** The endpoints: the bearer-token dependency runs first. *)
Definition post_vms (SECRET_KEY : string) (authorization : option JWT)
    (request : VMCreateRequest) (randint : Z) (uuid : string) (env : DbEnv)
  : Py VMResponse :=
  match get_current_user SECRET_KEY authorization with
  | inl e => raise e
  | inr _ => create_vm_handler request randint uuid env
  end.

Definition delete_vms (SECRET_KEY : string) (authorization : option JWT)
    (vm_id : string) (env : DbEnv) : Py VMResponse :=
  match get_current_user SECRET_KEY authorization with
  | inl e => raise e
  | inr _ => delete_vm_handler vm_id env
  end.

(** The HTTP response: FastAPI answers an [HTTPException] with its status
    and [{"detail": ...}]; any other exception ends in Starlette's
    [ServerErrorMiddleware] or the ASGI server, which answer a plain
    [500 Internal Server Error]. *)
Inductive HttpResponse :=
| JSONBody (status_code : Z) (body : VMResponse)
| JSONDetail (status_code : Z) (detail : string)
| PlainText (status_code : Z) (text : string).

Definition http_response (r : exn + VMResponse) : HttpResponse :=
  match r with
  | inr body => JSONBody 200 body
  | inl (HTTPException c d) => JSONDetail c d
  | inl _ => PlainText 500 "Internal Server Error"
  end.

(* ================================================================== *)
(** ** Traces *)

(** States of the process reachable through the two VM endpoints, from a
    fresh [vms] table ([Base.metadata.create_all] on a new database). *)
Inductive reachable (SECRET_KEY : string) : World -> Prop :=
| reach_init (k : option string) :
    reachable SECRET_KEY {| sdk_client := new_Client k; vms := ∅ |}
| reach_post w authorization request randint uuid env :
    reachable SECRET_KEY w ->
    reachable SECRET_KEY (fst (post_vms SECRET_KEY authorization request randint uuid env w))
| reach_delete w authorization vm_id env :
    reachable SECRET_KEY w ->
    reachable SECRET_KEY (fst (delete_vms SECRET_KEY authorization vm_id env w)).

(** A call of a [Client] method with its arguments (and the random draws
    of [create_vm]). *)
Inductive ClientCall :=
| CallAuthenticate
| CallCreateVm (name : string) (cpu_cores memory disk_size : Z)
    (public_ip : option string) (labels : option (list string))
    (randint : Z) (uuid : string)
| CallDeleteVm (vm_id : string).

(** The client after the call and the exception it raised, if any. *)
Definition call_client (c : Client) (call : ClientCall) : Client * option exn :=
  let raised {A} (r : Client * (exn + A)) :=
    (fst r, match snd r with inl e => Some e | inr _ => None end) in
  match call with
  | CallAuthenticate => raised (authenticate c)
  | CallCreateVm n cpu mem disk ip labels randint uuid =>
      raised (create_vm c n cpu mem disk ip labels randint uuid)
  | CallDeleteVm vm_id => raised (delete_vm c vm_id)
  end.

Definition run_calls (c : Client) (calls : list ClientCall) : Client :=
  fold_left (fun c call => fst (call_client c call)) calls c.

Definition is_authentication_error (e : option exn) : bool :=
  match e with Some (AuthenticationError _) => true | _ => false end.

(** The address [create_vm] receives from the handler and stores:
    [str(request.public_ip)], validated again by the client. *)
Definition reparsed_public_ip (ip : option IPvAnyAddress) : option string :=
  match ip with
  | None => None
  | Some a =>
      match validate_IPvAnyAddress (ip_str a) with
      | inr a' => Some (ip_str a')
      | inl _ => None
      end
  end.

(** What the IPv4 text round trip needs of [str(b)] for a byte [b]: it
    parses back as an octet, holds no ['.'] and no ['/'], and is not
    empty. *)
Definition decimal_byte_ok (b : Z) : bool :=
  let s := format_int 10 b in
  bool_decide (parse_octet s = Some b) && negb (str_contains "." s) &&
  negb (str_contains "/" s) && negb (String.eqb s "").

(* ================================================================== *)
(** * Properties *)

Example ip_examples :
  ip_normalise "10.0.0.255" = Some "10.0.0.255" /\
  ip_normalise "2001:DB8:0:0:0::1" = Some "2001:db8::1" /\
  ip_normalise "::ffff:1.2.3.4" = Some "::ffff:102:304" /\
  ip_normalise "fe80::%eth0" = Some "fe80::%eth0" /\
  ip_normalise "::" = Some "::" /\
  ip_normalise "1:0:0:2:0:0:0:3" = Some "1:0:0:2::3" /\
  ip_normalise "01.2.3.4" = None /\
  ip_normalise "1::2::3" = None /\
  ip_normalise "1:2:3:4:5:6:7:8:9" = None /\
  ip_normalise "" = None.
Proof. vm_compute. repeat split. Qed.

(* ------------------------------------------------------------------ *)
(** ** The SDK client *)

(** C5: [authenticate()] raises [AuthenticationError] when no API key is
    configured; with a nonempty key it sets [authenticated] and returns
    [True]. *)
Theorem authenticate_spec (c : Client) :
  (api_key c = None ->
   authenticate c = (c, inl (AuthenticationError "Invalid API key"))) /\
  (forall k, api_key c = Some k -> k <> "" ->
   authenticate c = ({| api_key := Some k; authenticated := true |}, inr true)).
Proof.
  unfold authenticate, truthy_str. split.
  - intros ->. reflexivity.
  - intros k -> Hk. apply String.eqb_neq in Hk. rewrite Hk. reflexivity.
Qed.

Lemma authenticate_spec_witness :
  authenticate (new_Client None) = (new_Client None, inl (AuthenticationError "Invalid API key")) /\
  authenticate (new_Client (Some "1234"))
    = ({| api_key := Some "1234"; authenticated := true |}, inr true).
Proof.
  split.
  - apply (proj1 (authenticate_spec (new_Client None))). reflexivity.
  - apply (proj2 (authenticate_spec (new_Client (Some "1234"))) "1234");
      [reflexivity | discriminate].
Defined.

(** C9: a key configured as the empty string is rejected like a missing
    one. *)
Theorem authenticate_empty_key (c : Client) :
  api_key c = Some "" ->
  authenticate c = (c, inl (AuthenticationError "Invalid API key")).
Proof. unfold authenticate. intros H. rewrite H. reflexivity. Qed.

Lemma authenticate_empty_key_witness :
  api_key (new_Client (Some "")) = Some "" /\
  authenticate (new_Client (Some ""))
    = (new_Client (Some ""), inl (AuthenticationError "Invalid API key")).
Proof. split; [reflexivity | apply authenticate_empty_key; reflexivity]. Defined.

(** C6: [delete_vm(vm_id)] raises [AuthenticationError] on an
    unauthenticated client and otherwise returns [True] for every id,
    without looking the id up. *)
Theorem delete_vm_spec (c : Client) (vm_id : string) :
  (authenticated c = false ->
   delete_vm c vm_id = (c, inl (AuthenticationError "Not authenticated"))) /\
  (authenticated c = true -> delete_vm c vm_id = (c, inr true)).
Proof. unfold delete_vm. split; intros ->; reflexivity. Qed.

Lemma delete_vm_spec_witness :
  delete_vm (new_Client None) "my-vm"
    = (new_Client None, inl (AuthenticationError "Not authenticated")) /\
  delete_vm (mkClient (Some "1234") true) "my-vm" = (mkClient (Some "1234") true, inr true).
Proof.
  split.
  - apply (proj1 (delete_vm_spec (new_Client None) "my-vm")). reflexivity.
  - apply (proj2 (delete_vm_spec (mkClient (Some "1234") true) "my-vm")). reflexivity.
Defined.

Lemma call_client_keeps_authenticated (c : Client) (call : ClientCall) :
  authenticated c = true -> authenticated (fst (call_client c call)) = true.
Proof.
  intros H. destruct call as [| n cpu mem disk ip labels r u | vm_id]; simpl.
  - unfold authenticate. destruct (negb (truthy_str (api_key c))); simpl; auto.
  - unfold create_vm. rewrite H. simpl.
    destruct (r =? 1)%Z; [assumption |].
    destruct ip as [s |]; [destruct (validate_IPvAnyAddress s) |]; assumption.
  - unfold delete_vm. rewrite H. assumption.
Qed.

Lemma run_calls_keeps_authenticated (calls : list ClientCall) :
  forall c, authenticated c = true -> authenticated (run_calls c calls) = true.
Proof.
  induction calls as [| call calls IH]; intros c H; simpl; [assumption |].
  apply IH, call_client_keeps_authenticated, H.
Qed.

(** C10: [authenticated] starts [False], only a successful
    [authenticate()] sets it, no call clears it, and after it is set no
    [create_vm] or [delete_vm] call raises [AuthenticationError]. *)
Theorem authenticated_monotone :
  (forall k, authenticated (new_Client k) = false) /\
  (forall c call, authenticated c = false ->
     authenticated (fst (call_client c call)) = true ->
     call = CallAuthenticate /\ snd (call_client c call) = None) /\
  (forall c calls, authenticated c = true -> authenticated (run_calls c calls) = true) /\
  (forall c calls call, authenticated c = true -> call <> CallAuthenticate ->
     is_authentication_error (snd (call_client (run_calls c calls) call)) = false).
Proof.
  split; [reflexivity |]. split; [| split].
  - intros c call H0 H1. destruct call as [| n cpu mem disk ip labels r u | vm_id].
    + split; [reflexivity |]. revert H1. simpl. unfold authenticate.
      destruct (negb (truthy_str (api_key c))); simpl; congruence.
    + exfalso. revert H1. simpl. unfold create_vm. rewrite H0. simpl.
      destruct (r =? 1)%Z; simpl; [congruence |].
      destruct ip as [s |]; [destruct (validate_IPvAnyAddress s) |]; simpl; congruence.
    + exfalso. revert H1. simpl. unfold delete_vm. rewrite H0. simpl. congruence.
  - exact (fun c calls H => run_calls_keeps_authenticated calls c H).
  - intros c calls call H Hcall.
    pose proof (run_calls_keeps_authenticated calls c H) as Ha.
    destruct call as [| n cpu mem disk ip labels r u | vm_id]; [congruence | |]; simpl.
    + unfold create_vm. rewrite Ha. simpl.
      destruct (r =? 1)%Z; simpl; [reflexivity |].
      destruct ip as [s |]; [| reflexivity].
      unfold validate_IPvAnyAddress.
      destruct (IPv4Address_new s); [reflexivity |].
      destruct (IPv6Address_new s) as [[? ?] |]; reflexivity.
    + unfold delete_vm. rewrite Ha. reflexivity.
Qed.

Lemma authenticated_monotone_witness :
  authenticated (new_Client (Some "1234")) = false /\
  (authenticated (fst (call_client (new_Client (Some "1234")) CallAuthenticate)) = true ->
   CallAuthenticate = CallAuthenticate /\
   snd (call_client (new_Client (Some "1234")) CallAuthenticate) = None) /\
  authenticated (run_calls (mkClient (Some "1234") true)
                   [CallCreateVm "my-vm" 1 512 10 None None 1 "u"; CallDeleteVm "x"]) = true /\
  is_authentication_error
    (snd (call_client (run_calls (mkClient (Some "1234") true) [CallDeleteVm "x"])
                      (CallCreateVm "my-vm" 1 512 10 None None 1 "u"))) = false.
Proof.
  destruct authenticated_monotone as (H1 & H2 & H3 & H4).
  split; [apply H1 |]. split; [apply H2; reflexivity |]. split.
  - apply H3. reflexivity.
  - apply H4; [reflexivity | discriminate].
Defined.

Lemma filter_pointwise {A} (f g : A -> bool) (l : list A) :
  (forall a, f a = g a) -> List.filter f l = List.filter g l.
Proof.
  intros H. induction l as [| a l IH]; simpl; [reflexivity |].
  rewrite H, IH. reflexivity.
Qed.

Definition raises_no_resources {A} (r : Client * (exn + A)) : bool :=
  match snd r with inl (NoResourcesAvailableError _) => true | _ => false end.

(** Among the 100 outcomes of [randint(1, 100)], exactly one makes an
    authenticated [create_vm] raise [NoResourcesAvailableError]. *)
Lemma create_vm_no_resources_count (c : Client) (name : string)
    (cpu_cores memory disk_size : Z) (public_ip : option string)
    (labels : option (list string)) (uuid : string) :
  authenticated c = true ->
  length (List.filter (fun d => raises_no_resources
                    (create_vm c name cpu_cores memory disk_size public_ip labels d uuid))
            (map Z.of_nat (seq 1 100))) = 1%nat.
Proof.
  intros H. rewrite (filter_pointwise _ (fun d => d =? 1)%Z); [reflexivity |].
  intros d. unfold create_vm. rewrite H. cbn [negb].
  destruct (d =? 1)%Z; [reflexivity |].
  destruct public_ip as [s |]; [| reflexivity].
  unfold validate_IPvAnyAddress.
  destruct (IPv4Address_new s); [reflexivity |].
  destruct (IPv6Address_new s) as [[? ?] |]; reflexivity.
Qed.

(** C4 (as amended): [create_vm] raises [AuthenticationError] when not
    authenticated; when authenticated it raises [NoResourcesAvailableError]
    exactly for the draw 1, one of the 100 outcomes of [randint(1, 100)];
    otherwise it raises pydantic's [ValidationError] when [public_ip] is a
    string that is not an IPv4 or IPv6 address, and else returns the
    [VirtualMachine] with the [uuid4()] text as id, the supplied fields,
    [public_ip] parsed as an address, and [labels] or [[]]. *)
Theorem create_vm_spec (c : Client) (name : string) (cpu_cores memory disk_size : Z)
    (public_ip : option string) (labels : option (list string)) (randint : Z) (uuid : string) :
  let r := create_vm c name cpu_cores memory disk_size public_ip labels randint uuid in
  let vm ip := {| vm_id := uuid; vm_name := name; vm_cpu_cores := cpu_cores;
                  vm_memory := memory; vm_disk_size := disk_size;
                  vm_public_ip := ip;
                  vm_labels := match labels with Some l => l | None => [] end |} in
  fst r = c /\
  (authenticated c = false -> snd r = inl (AuthenticationError "Not authenticated")) /\
  (authenticated c = true ->
     (randint = 1%Z ->
        snd r = inl (NoResourcesAvailableError
                       "No resources available to create a new virtual machine")) /\
     (randint <> 1%Z ->
        match public_ip with
        | None => snd r = inr (vm None)
        | Some s =>
            match validate_IPvAnyAddress s with
            | inl e => snd r = inl e
            | inr a => snd r = inr (vm (Some a))
            end
        end) /\
     length (List.filter (fun d => raises_no_resources
                       (create_vm c name cpu_cores memory disk_size public_ip labels d uuid))
               (map Z.of_nat (seq 1 100))) = 1%nat).
Proof.
  intros r vm.
  assert (Hl : labels_or_empty labels = match labels with Some l => l | None => [] end)
    by (destruct labels as [[|? ?] |]; reflexivity).
  subst r vm. split; [| split].
  - unfold create_vm. destruct (negb (authenticated c)); [reflexivity |].
    destruct (randint =? 1)%Z; [reflexivity |].
    destruct public_ip as [s |]; [destruct (validate_IPvAnyAddress s) |]; reflexivity.
  - intros Ha. unfold create_vm. rewrite Ha. reflexivity.
  - intros Ha. split; [| split].
    + intros ->. unfold create_vm. rewrite Ha. reflexivity.
    + intros Hr. apply Z.eqb_neq in Hr. unfold create_vm. rewrite Ha, Hr, Hl. cbn [negb].
      destruct public_ip as [s |]; [destruct (validate_IPvAnyAddress s) |]; reflexivity.
    + apply create_vm_no_resources_count, Ha.
Qed.

Lemma create_vm_spec_witness :
  snd (create_vm (mkClient (Some "1234") true) "my-vm" 1 512 10 (Some "10.0.0.1") None 7 "uuid4")
    = inr {| vm_id := "uuid4"; vm_name := "my-vm"; vm_cpu_cores := 1; vm_memory := 512;
             vm_disk_size := 10; vm_public_ip := Some (IPv4Address 167772161);
             vm_labels := [] |}.
Proof.
  destruct (create_vm_spec (mkClient (Some "1234") true) "my-vm" 1 512 10
              (Some "10.0.0.1") None 7 "uuid4") as (_ & _ & H).
  destruct (H eq_refl) as (_ & H2 & _).
  exact (H2 ltac:(discriminate)).
Defined.

(** C4, counterexample: an authenticated call that draws 50 (not 1) with
    [public_ip = "my-host"] raises a [ValidationError] instead of
    returning a [VirtualMachine]. *)
Lemma create_vm_invalid_ip_raises :
  snd (create_vm (mkClient (Some "1234") true) "my-vm" 1 512 10 (Some "my-host") None 50 "uuid4")
    = inl (ValidationError "value is not a valid IPv4 or IPv6 address").
Proof. vm_compute. reflexivity. Qed.

(* ------------------------------------------------------------------ *)
(** ** Tokens *)

(** C8: [POST /token] succeeds for every form whose username and
    password are present and not empty (and whose [grant_type], if sent,
    is ["password"]): it answers 200 with [token_type "bearer"] and an
    HS256 token signed with the secret whose payload is [sub = username];
    the password is not checked, any other non-empty password gives the
    same answer. A missing or empty username or password is answered
    422. *)
Theorem login_spec (SECRET_KEY : string) (form : list (string * string)) (u p : string) :
  form_field form "username" = Some u ->
  form_field form "password" = Some p ->
  form_field form "grant_type" = None \/ form_field form "grant_type" = Some "password" ->
  (exists body,
     post_token SECRET_KEY form = TokenOK body /\
     token_status (post_token SECRET_KEY form) = 200%Z /\
     token_type body = "bearer" /\
     jwt_alg (access_token body) = "HS256" /\
     jwt_payload (access_token body) = [("sub", u)] /\
     jwt_signature (access_token body) = HMAC SECRET_KEY "HS256" [("sub", u)] /\
     (forall p', p' <> "" ->
        post_token SECRET_KEY (form ++ [("password", p')]) = TokenOK body)) /\
  (forall form', form_field form' "username" = None \/ form_field form' "password" = None ->
     token_status (post_token SECRET_KEY form') = 422%Z).
Proof.
  intros Hu Hp Hg. split.
  - assert (Hgb : match form_field form "grant_type" with
                  | Some g => negb (String.eqb g "password")
                  | None => false
                  end = false) by (destruct Hg as [-> | ->]; reflexivity).
    eexists. unfold post_token. rewrite Hgb, Hu, Hp. split_and!; try reflexivity.
    intros p' Hp'.
    assert (Hp2 : form_field (form ++ [("password", p')]) "password" = Some p').
    { unfold form_field. clear -Hp'. induction form as [| [k v] r IH]; simpl.
      - destruct p' as [| c q]; [congruence | reflexivity].
      - destruct (form_get (r ++ [("password", p')]) "password") as [v' |] eqn:E;
          [| destruct p'; [congruence | simpl in IH; congruence]].
        exact IH. }
    assert (Hkeep : forall k, k <> "password" ->
              form_field (form ++ [("password", p')]) k = form_field form k).
    { intros k Hk. unfold form_field.
      assert (Hget : form_get (form ++ [("password", p')]) k = form_get form k).
      { clear -Hk. induction form as [| [k' v] r IH]; simpl.
        - apply String.eqb_neq in Hk. rewrite Hk. reflexivity.
        - rewrite IH. reflexivity. }
      rewrite Hget. reflexivity. }
    unfold post_token. rewrite (Hkeep "grant_type"), (Hkeep "username") by discriminate.
    rewrite Hgb, Hu, Hp2. reflexivity.
  - intros form' Hmiss. unfold post_token.
    destruct Hmiss as [-> | ->];
      [| destruct (form_field form' "username")];
      destruct (match form_field form' "grant_type" with
                | Some g => negb (String.eqb g "password")
                | None => false
                end); reflexivity.
Qed.

Lemma login_spec_witness :
  (exists body,
     post_token "dev_secret_key" [("username", "testuser"); ("password", "pw")] = TokenOK body /\
     token_status (post_token "dev_secret_key" [("username", "testuser"); ("password", "pw")])
       = 200%Z /\
     token_type body = "bearer" /\
     jwt_alg (access_token body) = "HS256" /\
     jwt_payload (access_token body) = [("sub", "testuser")] /\
     jwt_signature (access_token body) = HMAC "dev_secret_key" "HS256" [("sub", "testuser")] /\
     (forall p', p' <> "" ->
        post_token "dev_secret_key"
          ([("username", "testuser"); ("password", "pw")] ++ [("password", p')])
        = TokenOK body)) /\
  (forall form', form_field form' "username" = None \/ form_field form' "password" = None ->
     token_status (post_token "dev_secret_key" form') = 422%Z).
Proof.
  apply (login_spec "dev_secret_key" [("username", "testuser"); ("password", "pw")]
           "testuser" "pw"); [reflexivity | reflexivity | left; reflexivity].
Defined.

(** C8 does not hold for every pair: an empty username (like a missing
    one) is refused by FastAPI's form parsing with 422 before [login]
    runs. *)
Lemma post_token_empty_username :
  post_token "dev_secret_key" [("username", ""); ("password", "pw")]
    = TokenUnprocessable ["username"] /\
  token_status (post_token "dev_secret_key" [("username", ""); ("password", "pw")]) = 422%Z.
Proof. split; reflexivity. Qed.

(* ------------------------------------------------------------------ *)
(** ** The [vms] table *)

(** Every stored row sits under its own primary key and has status
    ["created"]. *)
Definition table_ok (t : gmap string VM) : Prop :=
  map_Forall (fun k row => id row = k /\ status row = "created") t.

(** Running [m] from a table where every row is created ends in one. *)
Definition keeps {A} (m : Py A) : Prop :=
  forall w, table_ok (vms w) -> table_ok (vms (fst (m w))).

Create HintDb keeps_db.

Lemma keeps_bind {A B} (m : Py A) (f : A -> Py B) :
  keeps m -> (forall a, keeps (f a)) -> keeps (x ← m; f x).
Proof.
  intros Hm Hf w Hw. unfold mbind, Py_bind.
  specialize (Hm w Hw). destruct (m w) as [w' [e | a]]; simpl in *; auto.
  apply Hf, Hm.
Qed.

Lemma keeps_try {A} (m : Py A) (h : exn -> Py A) :
  keeps m -> (forall e, keeps (h e)) -> keeps (try_except_Exception m h).
Proof.
  intros Hm Hh w Hw. unfold try_except_Exception.
  specialize (Hm w Hw). destruct (m w) as [w' [e | a]]; simpl in *; auto.
  destruct (is_Exception e); simpl; auto. apply Hh, Hm.
Qed.

Lemma keeps_raise {A} (e : exn) : keeps (@raise A e).
Proof. intros w Hw. exact Hw. Qed.

Lemma keeps_lift {A} (r : exn + A) : keeps (lift r).
Proof. intros w Hw. exact Hw. Qed.

Lemma keeps_sdk {A} (f : Client -> Client * (exn + A)) : keeps (sdk f).
Proof.
  intros w Hw. unfold sdk. destruct (f (sdk_client w)). exact Hw.
Qed.

Lemma keeps_refresh (obj : VM) (env : DbEnv) : keeps (db_refresh obj env).
Proof.
  intros w Hw. unfold db_refresh.
  destruct (fail_refresh env); [exact Hw |]. destruct (vms w !! id obj); exact Hw.
Qed.

Lemma keeps_query (vm_id : string) (env : DbEnv) : keeps (db_query_first vm_id env).
Proof. intros w Hw. unfold db_query_first. destruct (fail_query env); exact Hw. Qed.

Lemma keeps_delete_commit (vm : VM) (env : DbEnv) : keeps (db_delete_commit vm env).
Proof.
  intros w Hw. unfold db_delete_commit. destruct (fail_commit env); [exact Hw |].
  simpl. apply map_Forall_delete, Hw.
Qed.

Lemma keeps_add_commit (new_vm : VM) (env : DbEnv) :
  status new_vm = "created" -> keeps (db_add_commit new_vm env).
Proof.
  intros Hs w Hw. unfold db_add_commit. destruct (fail_commit env); [exact Hw |].
  destruct (vms w !! id new_vm); [exact Hw |].
  simpl. apply map_Forall_insert_2; [split; [reflexivity | exact Hs] | exact Hw].
Qed.

#[local] Hint Resolve keeps_bind keeps_try keeps_raise keeps_lift keeps_sdk
  keeps_refresh keeps_query keeps_delete_commit : keeps_db.

Lemma keeps_create_vm_handler request randint uuid env :
  keeps (create_vm_handler request randint uuid env).
Proof.
  unfold create_vm_handler.
  apply keeps_try; [| auto with keeps_db].
  apply keeps_bind; [auto with keeps_db | intros _].
  apply keeps_bind; [auto with keeps_db | intros vm].
  apply keeps_bind; [apply keeps_add_commit; reflexivity | intros _].
  auto with keeps_db.
Qed.

Lemma keeps_delete_vm_handler vm_id env : keeps (delete_vm_handler vm_id env).
Proof.
  unfold delete_vm_handler.
  apply keeps_try; [| auto with keeps_db].
  apply keeps_bind; [auto with keeps_db | intros _].
  apply keeps_bind; [auto with keeps_db | intros _].
  apply keeps_bind; [auto with keeps_db | intros [vm |]]; auto with keeps_db.
Qed.

Lemma reachable_table_ok SECRET_KEY w :
  reachable SECRET_KEY w -> table_ok (vms w).
Proof.
  induction 1 as [k | w tok req r u env _ IH | w tok vm_id env _ IH].
  - apply map_Forall_empty.
  - unfold post_vms. destruct (get_current_user SECRET_KEY tok); [exact IH |].
    apply keeps_create_vm_handler, IH.
  - unfold delete_vms. destruct (get_current_user SECRET_KEY tok); [exact IH |].
    apply keeps_delete_vm_handler, IH.
Qed.

(** A successful [DELETE /vms/{vm_id}] has removed the row. *)
Lemma delete_vm_handler_removes vm_id env w w' resp :
  table_ok (vms w) ->
  delete_vm_handler vm_id env w = (w', inr resp) ->
  resp_status resp = "deleted" /\ vms w' !! vm_id = None.
Proof.
  intros Hw.
  unfold delete_vm_handler, try_except_Exception, mbind, Py_bind, sdk, raise, lift.
  destruct (authenticate (sdk_client w)) as [c1 [e1 | b1]]; simpl;
    [destruct (is_Exception e1); simpl; congruence |].
  destruct (delete_vm c1 vm_id) as [c2 [e2 | b2]]; simpl;
    [destruct (is_Exception e2); simpl; congruence |].
  unfold db_query_first. simpl.
  destruct (fail_query env); simpl; [congruence |].
  destruct (vms w !! vm_id) as [vm |] eqn:Hq; simpl; [| congruence].
  unfold db_delete_commit. destruct (fail_commit env); simpl; [congruence |].
  destruct (Hw vm_id vm Hq) as [Hid _].
  unfold VMResponse_new.
  destruct (created_at vm), (updated_at vm); simpl; try congruence.
  intros [= <- <-]. split; [reflexivity |]. simpl. rewrite Hid.
  apply lookup_delete_eq.
Qed.

(** C7: in every state reached through [POST /vms] and
    [DELETE /vms/{vm_id}], every stored row has status ["created"]; a
    successful delete answers with status ["deleted"] and leaves no row
    under the id, so ["deleted"] is never stored. *)
Theorem reachable_rows_created (SECRET_KEY : string) (w : World) :
  reachable SECRET_KEY w ->
  map_Forall (fun _ row => status row = "created") (vms w) /\
  (forall authorization vm_id env w' resp,
     delete_vms SECRET_KEY authorization vm_id env w = (w', inr resp) ->
     resp_status resp = "deleted" /\ vms w' !! vm_id = None).
Proof.
  intros Hr. pose proof (reachable_table_ok SECRET_KEY w Hr) as Hw. split.
  - intros k row Hk. apply (Hw k row Hk).
  - intros tok vm_id env w' resp. unfold delete_vms.
    destruct (get_current_user SECRET_KEY tok); [unfold raise; congruence |].
    apply delete_vm_handler_removes, Hw.
Qed.

Lemma reachable_rows_created_witness :
  let w1 := fst (post_vms "dev_secret_key"
                   (Some (access_token (login "dev_secret_key"
                                          {| username := "testuser"; password := "pw" |})))
                   (mkVMCreateRequest "test-vm" 2 4096 50 None None) 42 "uuid4"
                   (mkDbEnv 100 100 None None None)
                   {| sdk_client := new_Client (Some "1234"); vms := ∅ |}) in
  reachable "dev_secret_key" w1 /\
  vms w1 !! "uuid4" <> None /\
  map_Forall (fun _ row => status row = "created") (vms w1).
Proof.
  intros w1.
  assert (H : reachable "dev_secret_key" w1) by (apply reach_post, reach_init).
  split; [exact H | split].
  - subst w1. vm_compute. discriminate.
  - apply (proj1 (reachable_rows_created _ _ H)).
Defined.

(* ------------------------------------------------------------------ *)
(** ** Error responses of the endpoints *)

(** C2, evaluated: a [DELETE /vms/{vm_id}] with a valid token, a
    configured SDK key and no row [vm_id] leaves the table unchanged but
    raises [HTTPException(500, "404: VM not found")]: the 404 raised inside
    the [try] is caught by [except Exception] and re-raised as a 500. *)
Theorem delete_missing_vm_answers_500 (SECRET_KEY : string) (authorization : option JWT)
    (user : string) (w : World) (vm_id : string) (env : DbEnv) :
  get_current_user SECRET_KEY authorization = inr user ->
  truthy_str (api_key (sdk_client w)) = true ->
  fail_query env = None ->
  vms w !! vm_id = None ->
  exists w',
    delete_vms SECRET_KEY authorization vm_id env w
      = (w', inl (HTTPException 500 "404: VM not found")) /\
    vms w' = vms w /\
    http_response (inl (HTTPException 500 "404: VM not found"))
      = JSONDetail 500 "404: VM not found".
Proof.
  intros Hu Hk Hq Hv. unfold delete_vms. rewrite Hu.
  unfold delete_vm_handler, try_except_Exception, mbind, Py_bind, sdk, raise.
  unfold authenticate. rewrite Hk. simpl.
  unfold db_query_first. rewrite Hq. simpl. rewrite Hv. simpl.
  eexists. split; [reflexivity |]. split; reflexivity.
Qed.

Lemma delete_missing_vm_answers_500_witness :
  exists w',
    delete_vms "dev_secret_key"
      (Some (access_token (login "dev_secret_key" {| username := "testuser"; password := "pw" |})))
      "missing-id" (mkDbEnv 0 0 None None None)
      {| sdk_client := new_Client (Some "1234"); vms := ∅ |}
      = (w', inl (HTTPException 500 "404: VM not found")) /\
    vms w' = ∅ /\
    http_response (inl (HTTPException 500 "404: VM not found"))
      = JSONDetail 500 "404: VM not found".
Proof.
  apply (delete_missing_vm_answers_500 "dev_secret_key" _ "testuser"
           {| sdk_client := new_Client (Some "1234"); vms := ∅ |});
    reflexivity.
Defined.

(** C1, evaluated: the SDK errors derive from [BaseException], so the
    handlers' [except Exception] lets them through: with no SDK key
    [POST /vms] and [DELETE /vms/{vm_id}] raise the bare
    [AuthenticationError], and the draw 1 makes [POST /vms] raise the bare
    [NoResourcesAvailableError]; the client gets a plain
    ["Internal Server Error"], not a 500 whose detail is the message. A
    failing commit, an [Exception], is turned into a 500 with its text. *)
Theorem sdk_errors_escape_handlers (SECRET_KEY : string) (authorization : option JWT)
    (user : string) (w : World) (request : VMCreateRequest) (randint : Z) (uuid : string)
    (vm_id : string) (env : DbEnv) :
  get_current_user SECRET_KEY authorization = inr user ->
  (api_key (sdk_client w) = None ->
     snd (post_vms SECRET_KEY authorization request randint uuid env w)
       = inl (AuthenticationError "Invalid API key") /\
     snd (delete_vms SECRET_KEY authorization vm_id env w)
       = inl (AuthenticationError "Invalid API key") /\
     http_response (inl (AuthenticationError "Invalid API key"))
       = PlainText 500 "Internal Server Error") /\
  (truthy_str (api_key (sdk_client w)) = true -> randint = 1%Z ->
     snd (post_vms SECRET_KEY authorization request randint uuid env w)
       = inl (NoResourcesAvailableError
                "No resources available to create a new virtual machine") /\
     http_response (inl (NoResourcesAvailableError
                "No resources available to create a new virtual machine"))
       = PlainText 500 "Internal Server Error") /\
  (forall m, truthy_str (api_key (sdk_client w)) = true -> fail_commit env = Some m ->
     fail_query env = None -> vms w !! vm_id <> None ->
     snd (delete_vms SECRET_KEY authorization vm_id env w) = inl (HTTPException 500 m)).
Proof.
  intros Hu. unfold post_vms, delete_vms. rewrite Hu.
  unfold create_vm_handler, delete_vm_handler, try_except_Exception, mbind, Py_bind,
    sdk, raise.
  split; [| split].
  - intros Hk. unfold authenticate, truthy_str. rewrite Hk. simpl.
    split; [reflexivity | split; reflexivity].
  - intros Hk ->. unfold authenticate. rewrite Hk. simpl. split; reflexivity.
  - intros m Hk Hc Hq Hv. unfold authenticate. rewrite Hk. simpl.
    unfold db_query_first. rewrite Hq. simpl.
    destruct (vms w !! vm_id) as [vm |]; [| congruence]. simpl.
    unfold db_delete_commit. rewrite Hc. reflexivity.
Qed.

Lemma sdk_errors_escape_handlers_witness :
  snd (post_vms "dev_secret_key"
         (Some (access_token (login "dev_secret_key" {| username := "testuser"; password := "pw" |})))
         (mkVMCreateRequest "test-vm" 2 4096 50 None None) 42 "uuid4"
         (mkDbEnv 0 0 None None None)
         {| sdk_client := new_Client None; vms := ∅ |})
    = inl (AuthenticationError "Invalid API key") /\
  snd (post_vms "dev_secret_key"
         (Some (access_token (login "dev_secret_key" {| username := "testuser"; password := "pw" |})))
         (mkVMCreateRequest "test-vm" 2 4096 50 None None) 1 "uuid4"
         (mkDbEnv 0 0 None None None)
         {| sdk_client := new_Client (Some "1234"); vms := ∅ |})
    = inl (NoResourcesAvailableError
             "No resources available to create a new virtual machine").
Proof.
  split.
  - destruct (sdk_errors_escape_handlers "dev_secret_key"
      (Some (access_token (login "dev_secret_key" {| username := "testuser"; password := "pw" |})))
      "testuser" {| sdk_client := new_Client None; vms := ∅ |}
      (mkVMCreateRequest "test-vm" 2 4096 50 None None) 42 "uuid4" "x"
      (mkDbEnv 0 0 None None None)) as [H1 _]; [reflexivity |].
    apply H1. reflexivity.
  - destruct (sdk_errors_escape_handlers "dev_secret_key"
      (Some (access_token (login "dev_secret_key" {| username := "testuser"; password := "pw" |})))
      "testuser" {| sdk_client := new_Client (Some "1234"); vms := ∅ |}
      (mkVMCreateRequest "test-vm" 2 4096 50 None None) 1 "uuid4" "x"
      (mkDbEnv 0 0 None None None)) as [_ [H2 _]]; [reflexivity |].
    apply H2; reflexivity.
Defined.

(* ------------------------------------------------------------------ *)
(** ** What a row stores *)

(** C3 (as amended): a row that [POST /vms] adds to the table holds the
    id, name, cpu_cores, memory, disk_size and [str(public_ip)] of the
    [VirtualMachine] returned by [Client.create_vm] in that call, status
    ["created"] and the two [utcnow] timestamps; [VM] has no [labels]
    column, so the labels are not stored. *)
Theorem post_vms_row_contents (SECRET_KEY : string) (authorization : option JWT)
    (request : VMCreateRequest) (randint : Z) (uuid : string) (env : DbEnv)
    (w w' : World) (res : exn + VMResponse) (k : string) (row : VM) :
  post_vms SECRET_KEY authorization request randint uuid env w = (w', res) ->
  vms w !! k = None ->
  vms w' !! k = Some row ->
  exists vm,
    snd (create_vm (fst (authenticate (sdk_client w))) (req_name request)
           (req_cpu_cores request) (req_memory request) (req_disk_size request)
           (ip_str <$> req_public_ip request) (req_labels request) randint uuid) = inr vm /\
    row = {| id := vm_id vm; name := vm_name vm; cpu_cores := vm_cpu_cores vm;
             memory := vm_memory vm; disk_size := vm_disk_size vm;
             public_ip := ip_str <$> vm_public_ip vm; status := "created";
             created_at := Some (now_created env); updated_at := Some (now_updated env) |}.
Proof.
  unfold post_vms. destruct (get_current_user SECRET_KEY authorization).
  { unfold raise. intros [= <- _]. congruence. }
  unfold create_vm_handler, try_except_Exception, mbind, Py_bind, sdk, raise, lift.
  destruct (authenticate (sdk_client w)) as [c1 [e1 | b1]]; simpl.
  { destruct (is_Exception e1); simpl; intros [= <- _]; simpl; congruence. }
  destruct (create_vm c1 (req_name request) (req_cpu_cores request) (req_memory request)
              (req_disk_size request) (ip_str <$> req_public_ip request)
              (req_labels request) randint uuid) as [c2 [e2 | vm]] eqn:Hc; simpl.
  { destruct (is_Exception e2); simpl; intros [= <- _]; simpl; congruence. }
  unfold db_add_commit. simpl.
  destruct (fail_commit env); simpl.
  { intros [= <- _]; simpl; congruence. }
  destruct (vms w !! vm_id vm) eqn:Hdup; simpl.
  { intros [= <- _]; simpl; congruence. }
  set (row0 := {| id := vm_id vm; name := vm_name vm; cpu_cores := vm_cpu_cores vm;
                  memory := vm_memory vm; disk_size := vm_disk_size vm;
                  public_ip := ip_str <$> vm_public_ip vm; status := "created";
                  created_at := Some (now_created env);
                  updated_at := Some (now_updated env) |}).
  intros Hrun Hnone Hrow.
  assert (Ht : vms w' = <[vm_id vm := row0]> (vms w)).
  { revert Hrun. unfold db_refresh. simpl.
    repeat case_match; intros Hrun; simplify_eq/=; reflexivity. }
  rewrite Ht in Hrow. exists vm. split; [reflexivity |].
  destruct (decide (vm_id vm = k)) as [<- | Hne].
  - rewrite lookup_insert_eq in Hrow. injection Hrow as <-. reflexivity.
  - rewrite lookup_insert_ne in Hrow by exact Hne. congruence.
Qed.

Lemma post_vms_row_contents_witness :
  let w := {| sdk_client := new_Client (Some "1234"); vms := ∅ |} in
  let request := mkVMCreateRequest "test-vm" 2 4096 50 (Some (IPv4Address 167772161))
                   (Some ["web"]) in
  let env := mkDbEnv 100 101 None None None in
  let row := mkVM "uuid4" "test-vm" 2 4096 50 (Some "10.0.0.1") "created"
               (Some 100%Z) (Some 101%Z) in
  vms w !! "uuid4" = None /\
  exists vm,
    snd (create_vm (fst (authenticate (sdk_client w))) (req_name request)
           (req_cpu_cores request) (req_memory request) (req_disk_size request)
           (ip_str <$> req_public_ip request) (req_labels request) 42 "uuid4") = inr vm /\
    row = {| id := vm_id vm; name := vm_name vm; cpu_cores := vm_cpu_cores vm;
             memory := vm_memory vm; disk_size := vm_disk_size vm;
             public_ip := ip_str <$> vm_public_ip vm; status := "created";
             created_at := Some (now_created env); updated_at := Some (now_updated env) |}.
Proof.
  intros w request env row. split; [reflexivity |].
  set (authorization := Some (access_token (login "dev_secret_key"
                          {| username := "testuser"; password := "pw" |}))).
  set (run := post_vms "dev_secret_key" authorization request 42 "uuid4" env w).
  apply (post_vms_row_contents "dev_secret_key" authorization request 42 "uuid4" env
           w (fst run) (snd run) "uuid4" row).
  - subst run. vm_compute. reflexivity.
  - reflexivity.
  - subst run. vm_compute. reflexivity.
Defined.

(** C3, counterexample: two [POST /vms] calls that differ only in their
    labels, one with [["web"]] and one without, leave the same table,
    although the [VirtualMachine]s the client returns differ in [labels]. *)
Lemma post_vms_drops_labels :
  vms (fst (post_vms "dev_secret_key"
              (Some (access_token (login "dev_secret_key"
                                     {| username := "testuser"; password := "pw" |})))
              (mkVMCreateRequest "test-vm" 2 4096 50 None (Some ["web"]))
              42 "uuid4" (mkDbEnv 100 100 None None None)
              {| sdk_client := new_Client (Some "1234"); vms := ∅ |}))
  = vms (fst (post_vms "dev_secret_key"
              (Some (access_token (login "dev_secret_key"
                                     {| username := "testuser"; password := "pw" |})))
              (mkVMCreateRequest "test-vm" 2 4096 50 None None)
              42 "uuid4" (mkDbEnv 100 100 None None None)
              {| sdk_client := new_Client (Some "1234"); vms := ∅ |})) /\
  vm_labels <$> (match snd (create_vm (mkClient (Some "1234") true) "test-vm" 2 4096 50
                              None (Some ["web"]) 42 "uuid4") with
                 | inr vm => Some vm | inl _ => None end) = Some ["web"] /\
  vm_labels <$> (match snd (create_vm (mkClient (Some "1234") true) "test-vm" 2 4096 50
                              None None 42 "uuid4") with
                 | inr vm => Some vm | inl _ => None end) = Some [].
Proof. vm_compute. split; [reflexivity | split; reflexivity]. Qed.

(* ================================================================== *)
(** * Further properties of the code *)

Ltac run_py :=
  unfold post_vms, delete_vms, create_vm_handler, delete_vm_handler,
    try_except_Exception, mbind, Py_bind, sdk, raise, lift, db_add_commit,
    db_refresh, db_query_first, db_delete_commit, with_vms, VMResponse_new in *;
  simpl in *.

(** [get_current_user] refuses a request without a token with 401 "Not
    authenticated", and answers 401 "Invalid credentials" for a token
    signed for another algorithm than HS256 and for a token signed with
    the key whose payload has no [sub]. *)
Theorem get_current_user_spec (SECRET_KEY : string) :
  get_current_user SECRET_KEY None = inl (HTTPException 401 "Not authenticated") /\
  (forall key alg claims, alg <> ALGORITHM ->
     get_current_user SECRET_KEY (Some (jwt_encode claims key alg))
       = inl (HTTPException 401 "Invalid credentials")) /\
  (forall claims, dict_get claims "sub" = None ->
     get_current_user SECRET_KEY (Some (jwt_encode claims SECRET_KEY ALGORITHM))
       = inl (HTTPException 401 "Invalid credentials")).
Proof.
  unfold get_current_user, jwt_decode, jwt_encode, Signature_eqb, ALGORITHM. simpl.
  split; [reflexivity |]. split.
  - intros key alg claims Ha. apply String.eqb_neq in Ha. rewrite Ha. reflexivity.
  - intros claims Hs. rewrite !String.eqb_refl, bool_decide_eq_true_2 by reflexivity.
    simpl. rewrite Hs. reflexivity.
Qed.

Lemma get_current_user_spec_witness :
  get_current_user "dev_secret_key" (Some (jwt_encode [("sub", "eve")] "dev_secret_key" "none"))
    = inl (HTTPException 401 "Invalid credentials") /\
  get_current_user "dev_secret_key" (Some (jwt_encode [("user", "eve")] "dev_secret_key" "HS256"))
    = inl (HTTPException 401 "Invalid credentials").
Proof.
  destruct (get_current_user_spec "dev_secret_key") as (_ & H2 & H3).
  split; [apply H2; discriminate | apply H3; reflexivity].
Defined.

Lemma post_vms_inr_inv (SECRET_KEY : string) (authorization : option JWT)
    (request : VMCreateRequest) (randint : Z) (uuid : string) (env : DbEnv)
    (w w' : World) (resp : VMResponse) :
  post_vms SECRET_KEY authorization request randint uuid env w = (w', inr resp) ->
  vms w !! uuid = None /\
  vms w' = <[uuid := {| id := uuid; name := req_name request;
                        cpu_cores := req_cpu_cores request; memory := req_memory request;
                        disk_size := req_disk_size request;
                        public_ip := resp_public_ip resp; status := "created";
                        created_at := Some (now_created env);
                        updated_at := Some (now_updated env) |}]> (vms w) /\
  resp = {| resp_id := uuid; resp_name := req_name request;
            resp_cpu_cores := req_cpu_cores request; resp_memory := req_memory request;
            resp_disk_size := req_disk_size request;
            resp_public_ip := reparsed_public_ip (req_public_ip request);
            resp_labels := labels_or_empty (req_labels request);
            resp_status := "created"; resp_created_at := now_created env;
            resp_updated_at := now_updated env |}.
Proof.
  intros Hrun. revert Hrun.
  run_py. unfold create_vm, reparsed_public_ip in *.
  repeat (case_match; simplify_eq/=); intros Hrun; simplify_eq/=;
    rewrite ?lookup_insert_eq in *; simplify_eq/=; auto.
Qed.

(** A successful [POST /vms] inserts exactly one row, under the fresh
    [uuid4] id that was not in the table, and answers with that row: same
    id, name, sizes, address and timestamps, status ["created"], and the
    request's labels (or [[]]). *)
Theorem post_vms_success (SECRET_KEY : string) (authorization : option JWT)
    (request : VMCreateRequest) (randint : Z) (uuid : string) (env : DbEnv)
    (w w' : World) (resp : VMResponse) :
  post_vms SECRET_KEY authorization request randint uuid env w = (w', inr resp) ->
  vms w !! uuid = None /\
  vms w' = <[uuid := {| id := uuid; name := req_name request;
                        cpu_cores := req_cpu_cores request; memory := req_memory request;
                        disk_size := req_disk_size request;
                        public_ip := resp_public_ip resp; status := "created";
                        created_at := Some (now_created env);
                        updated_at := Some (now_updated env) |}]> (vms w) /\
  resp = {| resp_id := uuid; resp_name := req_name request;
            resp_cpu_cores := req_cpu_cores request; resp_memory := req_memory request;
            resp_disk_size := req_disk_size request;
            resp_public_ip := reparsed_public_ip (req_public_ip request);
            resp_labels := labels_or_empty (req_labels request);
            resp_status := "created"; resp_created_at := now_created env;
            resp_updated_at := now_updated env |}.
Proof. apply post_vms_inr_inv. Qed.

Lemma post_vms_success_witness :
  let w := {| sdk_client := new_Client (Some "1234"); vms := ∅ |} in
  let request := mkVMCreateRequest "test-vm" 2 4096 50 (Some (IPv4Address 167772161))
                   (Some ["web"]) in
  let env := mkDbEnv 100 101 None None None in
  let authorization := Some (access_token (login "dev_secret_key"
                          {| username := "testuser"; password := "pw" |})) in
  let run := post_vms "dev_secret_key" authorization request 42 "uuid4" env w in
  exists resp, snd run = inr resp /\
  vms w !! "uuid4" = None /\
  vms (fst run) = <[ "uuid4" := {| id := "uuid4"; name := req_name request;
                        cpu_cores := req_cpu_cores request; memory := req_memory request;
                        disk_size := req_disk_size request;
                        public_ip := resp_public_ip resp; status := "created";
                        created_at := Some (now_created env);
                        updated_at := Some (now_updated env) |}]> (vms w) /\
  resp = {| resp_id := "uuid4"; resp_name := req_name request;
            resp_cpu_cores := req_cpu_cores request; resp_memory := req_memory request;
            resp_disk_size := req_disk_size request;
            resp_public_ip := reparsed_public_ip (req_public_ip request);
            resp_labels := labels_or_empty (req_labels request);
            resp_status := "created"; resp_created_at := now_created env;
            resp_updated_at := now_updated env |}.
Proof.
  intros w request env authorization run.
  destruct (snd run) as [e | resp] eqn:Hr; [vm_compute in Hr; discriminate |].
  exists resp. split; [reflexivity |].
  apply (post_vms_success "dev_secret_key" authorization request 42 "uuid4" env w (fst run)).
  rewrite <- Hr. subst run. destruct (post_vms _ _ _ _ _ _ _). reflexivity.
Defined.

Lemma delete_vms_inr_inv (SECRET_KEY : string) (authorization : option JWT)
    (vm_id : string) (env : DbEnv) (w w' : World) (resp : VMResponse) :
  delete_vms SECRET_KEY authorization vm_id env w = (w', inr resp) ->
  exists row,
    vms w !! vm_id = Some row /\
    vms w' = delete (id row) (vms w) /\
    created_at row = Some (resp_created_at resp) /\
    updated_at row = Some (resp_updated_at resp) /\
    resp = {| resp_id := id row; resp_name := name row; resp_cpu_cores := cpu_cores row;
              resp_memory := memory row; resp_disk_size := disk_size row;
              resp_public_ip := public_ip row; resp_labels := []; resp_status := "deleted";
              resp_created_at := resp_created_at resp;
              resp_updated_at := resp_updated_at resp |}.
Proof.
  intros Hrun. revert Hrun. run_py. unfold authenticate, delete_vm in *.
  repeat (case_match; simplify_eq/=); intros Hrun; simplify_eq/=.
  eexists. split_and!; eauto.
Qed.

(** A successful [DELETE /vms/{vm_id}] found the row under [vm_id],
    removed it, and answers with that row's fields, no labels and status
    ["deleted"]. *)
Theorem delete_vms_success (SECRET_KEY : string) (authorization : option JWT)
    (vm_id : string) (env : DbEnv) (w w' : World) (resp : VMResponse) :
  delete_vms SECRET_KEY authorization vm_id env w = (w', inr resp) ->
  exists row,
    vms w !! vm_id = Some row /\
    vms w' = delete (id row) (vms w) /\
    created_at row = Some (resp_created_at resp) /\
    updated_at row = Some (resp_updated_at resp) /\
    resp = {| resp_id := id row; resp_name := name row; resp_cpu_cores := cpu_cores row;
              resp_memory := memory row; resp_disk_size := disk_size row;
              resp_public_ip := public_ip row; resp_labels := []; resp_status := "deleted";
              resp_created_at := resp_created_at resp;
              resp_updated_at := resp_updated_at resp |}.
Proof. apply delete_vms_inr_inv. Qed.

(** Creating a VM and then deleting it by the id [POST /vms] returned
    gives back the table as it was before the create; the delete answer
    repeats the create answer with no labels and status ["deleted"]. *)
Theorem create_then_delete_roundtrip (SECRET_KEY : string) (tok1 tok2 : option JWT)
    (request : VMCreateRequest) (randint : Z) (uuid : string) (env1 env2 : DbEnv)
    (w w1 w2 : World) (resp1 resp2 : VMResponse) :
  post_vms SECRET_KEY tok1 request randint uuid env1 w = (w1, inr resp1) ->
  delete_vms SECRET_KEY tok2 (resp_id resp1) env2 w1 = (w2, inr resp2) ->
  vms w2 = vms w /\
  resp2 = {| resp_id := resp_id resp1; resp_name := resp_name resp1;
             resp_cpu_cores := resp_cpu_cores resp1; resp_memory := resp_memory resp1;
             resp_disk_size := resp_disk_size resp1;
             resp_public_ip := resp_public_ip resp1; resp_labels := [];
             resp_status := "deleted"; resp_created_at := resp_created_at resp1;
             resp_updated_at := resp_updated_at resp1 |}.
Proof.
  intros H1 H2.
  destruct (post_vms_inr_inv _ _ _ _ _ _ _ _ _ H1) as (Hfresh & Hw1 & ->).
  destruct (delete_vms_inr_inv _ _ _ _ _ _ _ H2) as (row & Hrow & Hw2 & Hc & Hu & ->).
  simpl in *. rewrite Hw1, lookup_insert_eq in Hrow. injection Hrow as <-.
  simpl in *. injection Hc as <-. injection Hu as <-.
  rewrite Hw2, Hw1. split; [apply delete_insert_id, Hfresh | reflexivity].
Qed.

Lemma delete_vms_success_witness :
  let w := {| sdk_client := new_Client (Some "1234");
              vms := {[ "a" := mkVM "a" "vm" 1 512 10 None "created" (Some 5%Z) (Some 6%Z) ]} |} in
  let authorization := Some (access_token (login "dev_secret_key"
                          {| username := "testuser"; password := "pw" |})) in
  exists w' resp,
    delete_vms "dev_secret_key" authorization "a" (mkDbEnv 0 0 None None None) w
      = (w', inr resp) /\
    exists row, vms w !! "a" = Some row /\ vms w' = delete (id row) (vms w) /\
      resp_status resp = "deleted".
Proof.
  intros w authorization.
  destruct (delete_vms "dev_secret_key" authorization "a" (mkDbEnv 0 0 None None None) w)
    as [w' [e | resp]] eqn:Hrun; [vm_compute in Hrun; discriminate |].
  exists w', resp. split; [reflexivity |].
  destruct (delete_vms_success _ _ _ _ _ _ _ Hrun) as (row & Hrow & Hw' & _ & _ & Hresp).
  exists row. split_and!; [exact Hrow | exact Hw' | rewrite Hresp; reflexivity].
Defined.

Lemma create_then_delete_roundtrip_witness :
  let w := {| sdk_client := new_Client (Some "1234");
              vms := {[ "a" := mkVM "a" "vm" 1 512 10 None "created" (Some 5%Z) (Some 6%Z) ]} |} in
  let authorization := Some (access_token (login "dev_secret_key"
                          {| username := "testuser"; password := "pw" |})) in
  let request := mkVMCreateRequest "test-vm" 2 4096 50 None (Some ["web"]) in
  exists w1 w2 resp1 resp2,
    post_vms "dev_secret_key" authorization request 42 "uuid4"
      (mkDbEnv 100 101 None None None) w = (w1, inr resp1) /\
    delete_vms "dev_secret_key" authorization (resp_id resp1)
      (mkDbEnv 200 201 None None None) w1 = (w2, inr resp2) /\
    vms w2 = vms w /\ resp_labels resp2 = [] /\ resp_created_at resp2 = 100%Z.
Proof.
  intros w authorization request.
  destruct (post_vms "dev_secret_key" authorization request 42 "uuid4"
              (mkDbEnv 100 101 None None None) w)
    as [w1 [e1 | resp1]] eqn:H1; [vm_compute in H1; discriminate |].
  destruct (delete_vms "dev_secret_key" authorization (resp_id resp1)
              (mkDbEnv 200 201 None None None) w1)
    as [w2 [e2 | resp2]] eqn:H2.
  { pose proof H1 as H1'. vm_compute in H1'. injection H1' as <- <-.
    vm_compute in H2. discriminate. }
  exists w1, w2, resp1, resp2. split_and!; [reflexivity | exact H2 | ..];
  destruct (create_then_delete_roundtrip "dev_secret_key" authorization authorization
              request 42 "uuid4" (mkDbEnv 100 101 None None None)
              (mkDbEnv 200 201 None None None) w w1 w2 resp1 resp2 H1 H2) as [Hw Hr].
  - exact Hw.
  - rewrite Hr. reflexivity.
  - rewrite Hr. pose proof H1 as H1'. vm_compute in H1'. injection H1' as _ <-.
    reflexivity.
Defined.

(** When [db.refresh] does not fail, a [POST /vms] that raises has left
    the table as it was: nothing is committed on the failing paths. *)
Theorem post_vms_error_keeps_table (SECRET_KEY : string) (authorization : option JWT)
    (request : VMCreateRequest) (randint : Z) (uuid : string) (env : DbEnv)
    (w w' : World) (e : exn) :
  fail_refresh env = None ->
  post_vms SECRET_KEY authorization request randint uuid env w = (w', inl e) ->
  vms w' = vms w.
Proof.
  intros Hf Hrun. revert Hrun. run_py. unfold create_vm in *. rewrite Hf.
  repeat (case_match; simplify_eq/=); intros Hrun; simplify_eq/=;
    rewrite ?lookup_insert_eq in *; simplify_eq/=; auto.
Qed.

Lemma post_vms_error_keeps_table_witness :
  let w := {| sdk_client := new_Client (Some "1234");
              vms := {[ "uuid4" := mkVM "uuid4" "vm" 1 512 10 None "created" (Some 5%Z) (Some 6%Z) ]} |} in
  let authorization := Some (access_token (login "dev_secret_key"
                          {| username := "testuser"; password := "pw" |})) in
  let run := post_vms "dev_secret_key" authorization
               (mkVMCreateRequest "test-vm" 2 4096 50 None None) 42 "uuid4"
               (mkDbEnv 100 101 None None None) w in
  snd run = inl (HTTPException 500
                   "(sqlite3.IntegrityError) UNIQUE constraint failed: vms.id") /\
  vms (fst run) = vms w.
Proof.
  intros w authorization run. split; [vm_compute; reflexivity |].
  apply (post_vms_error_keeps_table "dev_secret_key" authorization
           (mkVMCreateRequest "test-vm" 2 4096 50 None None) 42 "uuid4"
           (mkDbEnv 100 101 None None None) w (fst run)
           (HTTPException 500 "(sqlite3.IntegrityError) UNIQUE constraint failed: vms.id")).
  - reflexivity.
  - subst run. vm_compute. reflexivity.
Defined.

(** When [db.refresh] fails, [POST /vms] never succeeds; it may still
    have committed the new row before answering 500 with the refresh
    error's text. *)
Theorem post_vms_refresh_failure (SECRET_KEY : string) (authorization : option JWT)
    (request : VMCreateRequest) (randint : Z) (uuid : string) (env : DbEnv)
    (w w' : World) (r : exn + VMResponse) (m : string) :
  fail_refresh env = Some m ->
  post_vms SECRET_KEY authorization request randint uuid env w = (w', r) ->
  (exists e, r = inl e) /\
  (vms w' = vms w \/
   (r = inl (HTTPException 500 m) /\ vms w !! uuid = None /\
    exists row, vms w' = <[uuid := row]> (vms w) /\ id row = uuid /\
                status row = "created")).
Proof.
  intros Hf Hrun. revert Hrun. run_py. unfold create_vm in *. rewrite Hf.
  repeat (case_match; simplify_eq/=); intros Hrun; simplify_eq/=;
    split; eauto; right; split_and!; eauto.
Qed.

Lemma post_vms_refresh_failure_witness :
  let w := {| sdk_client := new_Client (Some "1234"); vms := ∅ |} in
  let authorization := Some (access_token (login "dev_secret_key"
                          {| username := "testuser"; password := "pw" |})) in
  let run := post_vms "dev_secret_key" authorization
               (mkVMCreateRequest "test-vm" 2 4096 50 None None) 42 "uuid4"
               (mkDbEnv 100 101 None None (Some "database is locked")) w in
  snd run = inl (HTTPException 500 "database is locked") /\
  vms (fst run) <> vms w /\
  ((exists e, snd run = inl e) /\
   (vms (fst run) = vms w \/
    (snd run = inl (HTTPException 500 "database is locked") /\ vms w !! "uuid4" = None /\
     exists row, vms (fst run) = <[ "uuid4" := row]> (vms w) /\ id row = "uuid4" /\
                 status row = "created"))).
Proof.
  intros w authorization run. split; [| split].
  - vm_compute. reflexivity.
  - subst run. vm_compute. discriminate.
  - apply (post_vms_refresh_failure "dev_secret_key" authorization
             (mkVMCreateRequest "test-vm" 2 4096 50 None None) 42 "uuid4"
             (mkDbEnv 100 101 None None (Some "database is locked")) w
             (fst run) (snd run) "database is locked").
    + reflexivity.
    + apply surjective_pairing.
Defined.

Ltac unfold_py :=
  unfold create_vm_handler, delete_vm_handler, try_except_Exception, mbind, Py_bind,
    sdk, raise, lift, db_add_commit, db_refresh, db_query_first, db_delete_commit,
    with_vms, VMResponse_new, authenticate, create_vm, delete_vm; simpl.

Section post_vms_admitted_request.

Variables (SECRET_KEY : string) (authorization : option JWT) (user : string)
  (request : VMCreateRequest) (randint : Z) (uuid : string) (env : DbEnv) (w : World).

(** The bearer token is accepted, [SDK_API_KEY] is set and not empty,
    [randint(1, 100)] did not draw 1, the request's address reads back
    as an address, and the commit does not fail. *)
Hypotheses
  (Huser : get_current_user SECRET_KEY authorization = inr user)
  (Hkey : truthy_str (api_key (sdk_client w)) = true)
  (Hrand : randint <> 1%Z)
  (Hip : forall a, req_public_ip request = Some a ->
                   exists a', validate_IPvAnyAddress (ip_str a) = inr a')
  (Hcommit : fail_commit env = None).

(** Such a [POST /vms] succeeds when [uuid4] is a new id and the refresh
    does not fail. *)
Theorem post_vms_succeeds :
  fail_refresh env = None -> vms w !! uuid = None ->
  exists w' resp, post_vms SECRET_KEY authorization request randint uuid env w = (w', inr resp).
Proof using Huser Hkey Hrand Hip Hcommit.
  intros Hf Hfresh. unfold post_vms. rewrite Huser. unfold_py.
  rewrite Hkey. simpl. rewrite (proj2 (Z.eqb_neq _ _) Hrand). simpl.
  destruct (req_public_ip request) as [a |] eqn:Ha;
    [destruct (Hip a eq_refl) as [a' Ha']; simpl; rewrite Ha' |]; simpl;
    rewrite Hcommit, Hfresh; simpl; rewrite Hf, lookup_insert_eq; simpl; eauto.
Qed.

(** Such a [POST /vms] whose [uuid4] is already a key of the table is
    answered 500 with a detail that starts with SQLite's unique-constraint
    message, and the table is unchanged. *)
Theorem post_vms_duplicate_id (old : VM) :
  vms w !! uuid = Some old ->
  exists w' rest,
    post_vms SECRET_KEY authorization request randint uuid env w
      = (w', inl (HTTPException 500
                    ("(sqlite3.IntegrityError) UNIQUE constraint failed: vms.id" +:+ rest))) /\
    vms w' = vms w.
Proof using Huser Hkey Hrand Hip Hcommit.
  intros Hold. unfold post_vms. rewrite Huser. unfold_py.
  rewrite Hkey. simpl. rewrite (proj2 (Z.eqb_neq _ _) Hrand). simpl.
  destruct (req_public_ip request) as [a |] eqn:Ha;
    [destruct (Hip a eq_refl) as [a' Ha']; simpl; rewrite Ha' |]; simpl;
    rewrite Hcommit, Hold; simpl; eexists; exists "";
    split; reflexivity.
Qed.

End post_vms_admitted_request.

Lemma post_vms_succeeds_witness :
  exists w' resp,
    post_vms "dev_secret_key"
      (Some (access_token (login "dev_secret_key" {| username := "testuser"; password := "pw" |})))
      (mkVMCreateRequest "test-vm" 2 4096 50 (Some (IPv4Address 167772161)) None) 42 "uuid4"
      (mkDbEnv 100 101 None None None)
      {| sdk_client := new_Client (Some "1234"); vms := ∅ |} = (w', inr resp).
Proof.
  apply (post_vms_succeeds "dev_secret_key"
           (Some (access_token (login "dev_secret_key" {| username := "testuser"; password := "pw" |})))
           "testuser"
           (mkVMCreateRequest "test-vm" 2 4096 50 (Some (IPv4Address 167772161)) None) 42 "uuid4"
           (mkDbEnv 100 101 None None None)
           {| sdk_client := new_Client (Some "1234"); vms := ∅ |}).
  - reflexivity.
  - reflexivity.
  - lia.
  - intros a Ha. simpl in Ha. injection Ha as <-. eexists. vm_compute. reflexivity.
  - reflexivity.
  - reflexivity.
  - reflexivity.
Defined.

Lemma post_vms_duplicate_id_witness :
  let w := {| sdk_client := new_Client (Some "1234");
              vms := {[ "uuid4" := mkVM "uuid4" "vm" 1 512 10 None "created"
                                     (Some 5%Z) (Some 6%Z) ]} |} in
  exists w' rest,
    post_vms "dev_secret_key"
      (Some (access_token (login "dev_secret_key" {| username := "testuser"; password := "pw" |})))
      (mkVMCreateRequest "test-vm" 2 4096 50 None None) 42 "uuid4"
      (mkDbEnv 100 101 None None None) w
    = (w', inl (HTTPException 500
                  ("(sqlite3.IntegrityError) UNIQUE constraint failed: vms.id" +:+ rest))) /\
    vms w' = vms w.
Proof.
  intros w.
  apply (post_vms_duplicate_id "dev_secret_key"
           (Some (access_token (login "dev_secret_key" {| username := "testuser"; password := "pw" |})))
           "testuser"
           (mkVMCreateRequest "test-vm" 2 4096 50 None None) 42 "uuid4"
           (mkDbEnv 100 101 None None None) w)
    with (old := mkVM "uuid4" "vm" 1 512 10 None "created" (Some 5%Z) (Some 6%Z)).
  - reflexivity.
  - reflexivity.
  - lia.
  - intros a Ha. discriminate Ha.
  - reflexivity.
  - apply lookup_insert_eq.
Defined.

(** [POST /vms] changes the table at most by inserting one row under the
    fresh [uuid4] id, with status ["created"] and the insert's timestamps;
    it never overwrites or removes a row. *)
Lemma post_vms_frame (SECRET_KEY : string) (authorization : option JWT)
    (request : VMCreateRequest) (randint : Z) (uuid : string) (env : DbEnv)
    (w w' : World) (r : exn + VMResponse) :
  post_vms SECRET_KEY authorization request randint uuid env w = (w', r) ->
  vms w' = vms w \/
  (vms w !! uuid = None /\
   exists row, vms w' = <[uuid := row]> (vms w) /\ id row = uuid /\
               status row = "created" /\
               created_at row = Some (now_created env) /\
               updated_at row = Some (now_updated env)).
Proof.
  run_py. unfold create_vm in *.
  repeat (case_match; simplify_eq/=); intros Hrun; simplify_eq/=;
    first [left; reflexivity | right; split; [assumption | eexists; split_and!; reflexivity]].
Qed.

(** [DELETE /vms/{vm_id}] changes the table at most by removing the row
    found under [vm_id]. *)
Lemma delete_vms_frame (SECRET_KEY : string) (authorization : option JWT)
    (vm_id : string) (env : DbEnv) (w w' : World) (r : exn + VMResponse) :
  delete_vms SECRET_KEY authorization vm_id env w = (w', r) ->
  vms w' = vms w \/
  exists row, vms w !! vm_id = Some row /\ vms w' = delete (id row) (vms w).
Proof.
  run_py. unfold delete_vm in *.
  repeat (case_match; simplify_eq/=); intros Hrun; simplify_eq/=;
    first [left; reflexivity | right; eexists; split; [eassumption | reflexivity]].
Qed.

(** [POST /vms] leaves every row under another key than the fresh
    [uuid4] id as it was. *)
Theorem post_vms_only_touches_uuid (SECRET_KEY : string) (authorization : option JWT)
    (request : VMCreateRequest) (randint : Z) (uuid : string) (env : DbEnv)
    (w w' : World) (r : exn + VMResponse) (k : string) :
  post_vms SECRET_KEY authorization request randint uuid env w = (w', r) ->
  k <> uuid -> vms w' !! k = vms w !! k.
Proof.
  intros Hrun Hk.
  destruct (post_vms_frame _ _ _ _ _ _ _ _ _ Hrun) as [-> | (_ & row & -> & _)];
    [reflexivity | apply lookup_insert_ne; congruence].
Qed.

(** From a table whose rows sit under their own ids, [DELETE /vms/{vm_id}]
    leaves every row under another key than [vm_id] as it was. *)
Theorem delete_vms_only_touches_vm_id (SECRET_KEY : string) (authorization : option JWT)
    (vm_id : string) (env : DbEnv) (w w' : World) (r : exn + VMResponse) (k : string) :
  map_Forall (fun key row => id row = key) (vms w) ->
  delete_vms SECRET_KEY authorization vm_id env w = (w', r) ->
  k <> vm_id -> vms w' !! k = vms w !! k.
Proof.
  intros Hw Hrun Hk.
  destruct (delete_vms_frame _ _ _ _ _ _ _ Hrun) as [-> | (row & Hrow & ->)];
    [reflexivity |].
  rewrite (Hw _ _ Hrow). apply lookup_delete_ne. congruence.
Qed.

Lemma post_vms_only_touches_uuid_witness :
  let w := {| sdk_client := new_Client (Some "1234");
              vms := {[ "a" := mkVM "a" "vm" 1 512 10 None "created" (Some 5%Z) (Some 6%Z) ]} |} in
  let authorization := Some (access_token (login "dev_secret_key"
                          {| username := "testuser"; password := "pw" |})) in
  let run := post_vms "dev_secret_key" authorization
               (mkVMCreateRequest "test-vm" 2 4096 50 None None) 42 "uuid4"
               (mkDbEnv 100 101 None None None) w in
  vms (fst run) !! "a" = vms w !! "a".
Proof.
  intros w authorization run.
  apply (post_vms_only_touches_uuid "dev_secret_key" authorization
           (mkVMCreateRequest "test-vm" 2 4096 50 None None) 42 "uuid4"
           (mkDbEnv 100 101 None None None) w (fst run) (snd run) "a").
  - apply surjective_pairing.
  - discriminate.
Defined.

Lemma delete_vms_only_touches_vm_id_witness :
  let w := {| sdk_client := new_Client (Some "1234");
              vms := <[ "a" := mkVM "a" "vm" 1 512 10 None "created" (Some 5%Z) (Some 6%Z) ]>
                       {[ "b" := mkVM "b" "vm2" 2 1024 20 None "created" (Some 7%Z) (Some 8%Z) ]} |} in
  let authorization := Some (access_token (login "dev_secret_key"
                          {| username := "testuser"; password := "pw" |})) in
  let run := delete_vms "dev_secret_key" authorization "a" (mkDbEnv 0 0 None None None) w in
  vms (fst run) !! "b" = vms w !! "b".
Proof.
  intros w authorization run.
  apply (delete_vms_only_touches_vm_id "dev_secret_key" authorization "a"
           (mkDbEnv 0 0 None None None) w (fst run) (snd run) "b").
  - apply map_Forall_insert_2; [reflexivity |].
    apply map_Forall_singleton. reflexivity.
  - apply surjective_pairing.
  - discriminate.
Defined.

(** Every row of a reachable table has both timestamps set. *)
Lemma reachable_rows_stamped SECRET_KEY w :
  reachable SECRET_KEY w ->
  map_Forall (fun _ row => is_Some (created_at row) /\ is_Some (updated_at row)) (vms w).
Proof.
  induction 1 as [k | w tok req r u env _ IH | w tok vm_id env _ IH].
  - apply map_Forall_empty.
  - destruct (post_vms_frame SECRET_KEY tok req r u env w _ _ (surjective_pairing _))
      as [-> | (_ & row & -> & _ & _ & Hc & Hu)]; [exact IH |].
    apply map_Forall_insert_2; [rewrite Hc, Hu; split; eexists; reflexivity | exact IH].
  - destruct (delete_vms_frame SECRET_KEY tok vm_id env w _ _ (surjective_pairing _))
      as [-> | (row & _ & ->)]; [exact IH |].
    apply map_Forall_delete, IH.
Qed.

(** In a reachable state, a [DELETE /vms/{vm_id}] that raises has left the
    table as it was. *)
Theorem delete_vms_error_keeps_table (SECRET_KEY : string) (authorization : option JWT)
    (vm_id : string) (env : DbEnv) (w w' : World) (e : exn) :
  reachable SECRET_KEY w ->
  delete_vms SECRET_KEY authorization vm_id env w = (w', inl e) ->
  vms w' = vms w.
Proof.
  intros Hr. pose proof (reachable_rows_stamped SECRET_KEY w Hr) as Hst.
  run_py. unfold delete_vm in *.
  repeat (case_match; simplify_eq/=); intros Hrun; simplify_eq/=; auto;
    match goal with
    | Hq : vms _ !! _ = Some ?row |- _ =>
        destruct (Hst _ _ Hq) as [[? ?] [? ?]]; congruence
    end.
Qed.

(** In a reachable state, a [DELETE /vms/{vm_id}] with an accepted token,
    a configured API key and no database fault succeeds when a row is
    stored under [vm_id]. *)
Theorem delete_vms_succeeds (SECRET_KEY : string) (authorization : option JWT)
    (user vm_id : string) (env : DbEnv) (w : World) (row : VM) :
  reachable SECRET_KEY w ->
  get_current_user SECRET_KEY authorization = inr user ->
  truthy_str (api_key (sdk_client w)) = true ->
  fail_query env = None -> fail_commit env = None ->
  vms w !! vm_id = Some row ->
  exists w' resp, delete_vms SECRET_KEY authorization vm_id env w = (w', inr resp).
Proof.
  intros Hr Huser Hkey Hq Hc Hrow.
  destruct (reachable_rows_stamped SECRET_KEY w Hr _ _ Hrow) as [[c Hcr] [u Hur]].
  unfold delete_vms. rewrite Huser. unfold_py.
  rewrite Hkey. simpl. rewrite Hq, Hrow. simpl. rewrite Hc. simpl.
  rewrite Hcr, Hur. eauto.
Qed.

Lemma delete_vms_error_keeps_table_witness :
  let authorization := Some (access_token (login "dev_secret_key"
                          {| username := "testuser"; password := "pw" |})) in
  let w := fst (post_vms "dev_secret_key" authorization
                  (mkVMCreateRequest "test-vm" 2 4096 50 None None) 42 "uuid4"
                  (mkDbEnv 100 101 None None None)
                  {| sdk_client := new_Client (Some "1234"); vms := ∅ |}) in
  let run := delete_vms "dev_secret_key" authorization "uuid4"
               (mkDbEnv 0 0 None (Some "disk I/O error") None) w in
  snd run = inl (HTTPException 500 "disk I/O error") /\ vms (fst run) = vms w.
Proof.
  intros authorization w run. split; [vm_compute; reflexivity |].
  apply (delete_vms_error_keeps_table "dev_secret_key" authorization "uuid4"
           (mkDbEnv 0 0 None (Some "disk I/O error") None) w (fst run)
           (HTTPException 500 "disk I/O error")).
  - apply reach_post, reach_init.
  - subst run. vm_compute. reflexivity.
Defined.

Lemma delete_vms_succeeds_witness :
  let authorization := Some (access_token (login "dev_secret_key"
                          {| username := "testuser"; password := "pw" |})) in
  let w := fst (post_vms "dev_secret_key" authorization
                  (mkVMCreateRequest "test-vm" 2 4096 50 None None) 42 "uuid4"
                  (mkDbEnv 100 101 None None None)
                  {| sdk_client := new_Client (Some "1234"); vms := ∅ |}) in
  exists w' resp,
    delete_vms "dev_secret_key" authorization "uuid4" (mkDbEnv 0 0 None None None) w
      = (w', inr resp).
Proof.
  intros authorization w.
  apply (delete_vms_succeeds "dev_secret_key" authorization "testuser" "uuid4"
           (mkDbEnv 0 0 None None None) w
           (mkVM "uuid4" "test-vm" 2 4096 50 None "created" (Some 100%Z) (Some 101%Z))).
  - apply reach_post, reach_init.
  - reflexivity.
  - vm_compute. reflexivity.
  - reflexivity.
  - reflexivity.
  - vm_compute. reflexivity.
Defined.

(** ** The text of an IPv4 address reads back as the same address *)

Lemma str_contains_app (c : ascii) (s1 s2 : string) :
  str_contains c (s1 +:+ s2) = str_contains c s1 || str_contains c s2.
Proof.
  induction s1 as [| a s1 IH]; simpl; [reflexivity |].
  rewrite IH. apply orb_assoc.
Qed.

Lemma split_on_no_sep (sep : ascii) (s : string) :
  str_contains sep s = false -> split_on sep s = [s].
Proof.
  induction s as [| a s IH]; simpl; [reflexivity |].
  intros H. apply orb_false_iff in H as [Ha Hs]. rewrite Ha, IH by exact Hs.
  reflexivity.
Qed.

Lemma split_on_app_sep (sep : ascii) (p q : string) :
  str_contains sep p = false ->
  split_on sep (p +:+ (String sep "" +:+ q)) = p :: split_on sep q.
Proof.
  induction p as [| a p IH]; simpl.
  - intros _. rewrite Ascii.eqb_refl. reflexivity.
  - intros H. apply orb_false_iff in H as [Ha Hp]. rewrite Ha, IH by exact Hp.
    reflexivity.
Qed.

Lemma append_nonempty_eqb (s t : string) :
  String.eqb s "" = false -> String.eqb (s +:+ t) "" = false.
Proof. destruct s; [discriminate | reflexivity]. Qed.

Lemma decimal_bytes_ok : forallb (fun i => decimal_byte_ok (Z.of_nat i)) (seq 0 256) = true.
Proof. vm_compute. reflexivity. Qed.

Lemma decimal_byte_ok_spec (b : Z) :
  (0 <= b < 256)%Z -> decimal_byte_ok b = true.
Proof.
  intros Hb. pose proof decimal_bytes_ok as H.
  rewrite forallb_forall in H. specialize (H (Z.to_nat b)).
  rewrite Z2Nat.id in H by lia. apply H, in_seq. lia.
Qed.

Lemma byte_of_range (n : Z) (k : Z) :
  (0 <= k)%Z -> (0 <= Z.land (Z.shiftr n k) 255 < 256)%Z.
Proof.
  intros Hk. change 255%Z with (Z.ones 8). rewrite Z.land_ones by lia.
  apply Z.mod_pos_bound. lia.
Qed.

Lemma ipv4_str_validates (n : Z) :
  (0 <= n < 2 ^ 32)%Z ->
  validate_IPvAnyAddress (ip_str (IPv4Address n)) = inr (IPv4Address n).
Proof.
  intros Hn.
  unfold validate_IPvAnyAddress, IPv4Address_new, ipv4_int_from_string, ip_str.
  cbn -[format_int Z.land Z.shiftr Z.mul].
  set (b3 := Z.land (Z.shiftr n (8 * 3)) 255). set (b2 := Z.land (Z.shiftr n (8 * 2)) 255).
  set (b1 := Z.land (Z.shiftr n (8 * 1)) 255). set (b0 := Z.land (Z.shiftr n (8 * 0)) 255).
  assert (H3 := decimal_byte_ok_spec b3 (byte_of_range n (8 * 3) ltac:(lia))).
  assert (H2 := decimal_byte_ok_spec b2 (byte_of_range n (8 * 2) ltac:(lia))).
  assert (H1 := decimal_byte_ok_spec b1 (byte_of_range n (8 * 1) ltac:(lia))).
  assert (H0 := decimal_byte_ok_spec b0 (byte_of_range n (8 * 0) ltac:(lia))).
  unfold decimal_byte_ok in H3, H2, H1, H0.
  apply andb_prop in H3 as [[[P3 D3]%andb_prop S3]%andb_prop E3].
  apply andb_prop in H2 as [[[P2 D2]%andb_prop S2]%andb_prop E2].
  apply andb_prop in H1 as [[[P1 D1]%andb_prop S1]%andb_prop E1].
  apply andb_prop in H0 as [[[P0 D0]%andb_prop S0]%andb_prop E0].
  apply bool_decide_eq_true in P3, P2, P1, P0.
  apply negb_true_iff in D3, D2, D1, D0, S3, S2, S1, S0, E3.
  rewrite !str_contains_app. cbn -[format_int]. rewrite S3, S2, S1, S0. cbn -[format_int].
  rewrite (append_nonempty_eqb _ _ E3). cbn -[format_int].
  rewrite !split_on_app_sep, split_on_no_sep by assumption. cbn -[format_int].
  rewrite P3, P2, P1, P0. cbn -[format_int].
  f_equal. f_equal.
  subst b3 b2 b1 b0. change 255%Z with (Z.ones 8). rewrite !Z.land_ones by lia.
  rewrite !Z.shiftr_div_pow2 by lia.
  change (2 ^ (8 * 3))%Z with 16777216%Z. change (2 ^ (8 * 2))%Z with 65536%Z.
  change (2 ^ (8 * 1))%Z with 256%Z. change (2 ^ (8 * 0))%Z with 1%Z.
  change (2 ^ 8)%Z with 256%Z. clear -Hn. rewrite Z.div_1_r. change (2 ^ 32)%Z with 4294967296%Z in Hn.
  assert (E2 : (n / 65536 = n / 256 / 256)%Z) by (rewrite Z.div_div by lia; reflexivity).
  assert (E3 : (n / 16777216 = n / 256 / 256 / 256)%Z) by (rewrite !Z.div_div by lia; reflexivity).
  assert (B3 : (0 <= n / 16777216 < 256)%Z)
    by (split; [apply Z.div_pos | apply Z.div_lt_upper_bound]; lia).
  rewrite (Z.mod_small (n / 16777216) 256) by exact B3.
  rewrite E2, E3 in *.
  pose proof (Z.div_mod n 256 ltac:(lia)).
  pose proof (Z.div_mod (n / 256) 256 ltac:(lia)).
  pose proof (Z.div_mod (n / 256 / 256) 256 ltac:(lia)).
  lia.
Qed.

(** [str(IPv4Address(n))] validates back to [IPv4Address(n)] for every
    32-bit [n], and normalising that text gives it back unchanged. *)
Theorem ipv4_str_roundtrip (n : Z) :
  (0 <= n < 2 ^ 32)%Z ->
  validate_IPvAnyAddress (ip_str (IPv4Address n)) = inr (IPv4Address n) /\
  ip_normalise (ip_str (IPv4Address n)) = Some (ip_str (IPv4Address n)).
Proof.
  intros Hn. unfold ip_normalise. rewrite ipv4_str_validates by exact Hn.
  split; reflexivity.
Qed.

Lemma ipv4_str_roundtrip_witness :
  validate_IPvAnyAddress (ip_str (IPv4Address 3232235777)) = inr (IPv4Address 3232235777) /\
  ip_normalise (ip_str (IPv4Address 3232235777)) = Some (ip_str (IPv4Address 3232235777)).
Proof. apply ipv4_str_roundtrip. lia. Defined.

(** A successful [POST /vms] with an IPv4 [public_ip] stores and answers
    the address as [str(request.public_ip)]. *)
Theorem post_vms_ipv4_public_ip (SECRET_KEY : string) (authorization : option JWT)
    (request : VMCreateRequest) (randint : Z) (uuid : string) (env : DbEnv)
    (w w' : World) (resp : VMResponse) (n : Z) :
  (0 <= n < 2 ^ 32)%Z ->
  req_public_ip request = Some (IPv4Address n) ->
  post_vms SECRET_KEY authorization request randint uuid env w = (w', inr resp) ->
  resp_public_ip resp = Some (ip_str (IPv4Address n)) /\
  exists row, vms w' !! uuid = Some row /\ public_ip row = Some (ip_str (IPv4Address n)).
Proof.
  intros Hn Hip Hrun.
  destruct (post_vms_inr_inv _ _ _ _ _ _ _ _ _ Hrun) as (_ & Hw' & Hresp).
  assert (Hpub : resp_public_ip resp = Some (ip_str (IPv4Address n))).
  { rewrite Hresp. simpl. unfold reparsed_public_ip. rewrite Hip, ipv4_str_validates
      by exact Hn. reflexivity. }
  split; [exact Hpub |]. eexists. rewrite Hw', lookup_insert_eq. split; [reflexivity |].
  exact Hpub.
Qed.

Lemma post_vms_ipv4_public_ip_witness :
  let w := {| sdk_client := new_Client (Some "1234"); vms := ∅ |} in
  let request := mkVMCreateRequest "test-vm" 2 4096 50 (Some (IPv4Address 167772161)) None in
  let authorization := Some (access_token (login "dev_secret_key"
                          {| username := "testuser"; password := "pw" |})) in
  let run := post_vms "dev_secret_key" authorization request 42 "uuid4"
               (mkDbEnv 100 101 None None None) w in
  exists resp, snd run = inr resp /\
  resp_public_ip resp = Some (ip_str (IPv4Address 167772161)) /\
  exists row, vms (fst run) !! "uuid4" = Some row /\
  public_ip row = Some (ip_str (IPv4Address 167772161)).
Proof.
  intros w request authorization run.
  destruct (snd run) as [e | resp] eqn:Hr; [vm_compute in Hr; discriminate |].
  exists resp. split; [reflexivity |].
  apply (post_vms_ipv4_public_ip "dev_secret_key" authorization request 42 "uuid4"
           (mkDbEnv 100 101 None None None) w (fst run) resp 167772161).
  - lia.
  - reflexivity.
  - rewrite <- Hr. subst run. destruct (post_vms _ _ _ _ _ _ _). reflexivity.
Defined.

(* ------------------------------------------------------------------ *)
(** ** The shared SDK client *)

(** Each [POST /vms] whose body passed validation, and each
    [DELETE /vms/{vm_id}], leaves the shared SDK client as one call of
    [authenticate] leaves it when the token is accepted, and untouched
    otherwise: [create_vm] and [delete_vm] never change the client. *)
Theorem requests_sdk_client_effect (SECRET_KEY : string) (authorization : option JWT)
    (request : VMCreateRequest) (randint : Z) (uuid vm_id : string) (env : DbEnv)
    (w : World) :
  let expected :=
    match get_current_user SECRET_KEY authorization with
    | inr _ => fst (authenticate (sdk_client w))
    | inl _ => sdk_client w
    end in
  sdk_client (fst (post_vms SECRET_KEY authorization request randint uuid env w)) = expected /\
  sdk_client (fst (delete_vms SECRET_KEY authorization vm_id env w)) = expected.
Proof.
  intros expected. subst expected. unfold post_vms, delete_vms.
  destruct (get_current_user SECRET_KEY authorization); [split; reflexivity |].
  unfold_py. destruct (truthy_str (api_key (sdk_client w))); simpl; [| split; reflexivity].
  split; repeat (case_match; simplify_eq/=); reflexivity.
Qed.

(** What a successful [DELETE /vms/{vm_id}] shows about the state it
    leaves, from a table whose rows sit under their own ids. *)
Lemma delete_vms_inr_facts SECRET_KEY authorization vm_id env w w1 resp :
  table_ok (vms w) ->
  delete_vms SECRET_KEY authorization vm_id env w = (w1, inr resp) ->
  (exists user, get_current_user SECRET_KEY authorization = inr user) /\
  truthy_str (api_key (sdk_client w1)) = true /\
  vms w1 !! vm_id = None.
Proof.
  intros Hw. unfold delete_vms.
  destruct (get_current_user SECRET_KEY authorization) as [e | user];
    [unfold raise; congruence |].
  unfold_py.
  destruct (truthy_str (api_key (sdk_client w))) eqn:Hk; simpl;
    [| congruence].
  destruct (fail_query env); simpl; [congruence |].
  destruct (vms w !! vm_id) as [row |] eqn:Hq; simpl; [| congruence].
  destruct (fail_commit env); simpl; [congruence |].
  destruct (Hw vm_id row Hq) as [Hid _].
  destruct (created_at row), (updated_at row); simpl; try congruence.
  intros [= <- _]. simpl. split_and!; [eauto | exact Hk |].
  rewrite Hid. apply lookup_delete_eq.
Qed.

(** In a reachable state, deleting the same VM a second time after a
    successful delete is answered 500 with ["404: VM not found"] and
    changes nothing, when the query does not fail. *)
Theorem delete_vms_twice (SECRET_KEY : string) (authorization : option JWT)
    (vm_id : string) (env1 env2 : DbEnv) (w w1 : World) (resp : VMResponse) :
  reachable SECRET_KEY w ->
  delete_vms SECRET_KEY authorization vm_id env1 w = (w1, inr resp) ->
  fail_query env2 = None ->
  exists w2,
    delete_vms SECRET_KEY authorization vm_id env2 w1
      = (w2, inl (HTTPException 500 "404: VM not found")) /\
    vms w2 = vms w1.
Proof.
  intros Hr Hrun Hq.
  destruct (delete_vms_inr_facts _ _ _ _ _ _ _ (reachable_table_ok _ _ Hr) Hrun)
    as ([user Hu] & Hk & Hnone).
  unfold delete_vms. rewrite Hu. unfold_py. rewrite Hk. simpl.
  rewrite Hq. simpl. rewrite Hnone. simpl. eauto.
Qed.

Lemma delete_vms_twice_witness :
  let authorization := Some (access_token (login "dev_secret_key"
                          {| username := "testuser"; password := "pw" |})) in
  let w := fst (post_vms "dev_secret_key" authorization
                  (mkVMCreateRequest "test-vm" 2 4096 50 None None) 42 "uuid4"
                  (mkDbEnv 100 101 None None None)
                  {| sdk_client := new_Client (Some "1234"); vms := ∅ |}) in
  let run1 := delete_vms "dev_secret_key" authorization "uuid4" (mkDbEnv 0 0 None None None) w in
  exists w2,
    delete_vms "dev_secret_key" authorization "uuid4" (mkDbEnv 1 1 None None None) (fst run1)
      = (w2, inl (HTTPException 500 "404: VM not found")) /\
    vms w2 = vms (fst run1).
Proof.
  intros authorization w run1.
  destruct (snd run1) as [e | resp] eqn:Hr; [vm_compute in Hr; discriminate |].
  apply (delete_vms_twice "dev_secret_key" authorization "uuid4"
           (mkDbEnv 0 0 None None None) (mkDbEnv 1 1 None None None) w (fst run1) resp).
  - apply reach_post, reach_init.
  - rewrite <- Hr. subst run1. destruct (delete_vms _ _ _ _ _). reflexivity.
  - reflexivity.
Defined.
